(** * Boxing round timer: a shallow embedding of [boxing_timer.py]

    The Python script is embedded function by function.  Integers are [Z]
    (Python integers are unbounded), text is [string], the terminal is a
    chronological trace of events, and the effectful functions live in a
    small monad threading that trace together with Python's two exceptions
    that matter here, [KeyboardInterrupt] and [SystemExit]. *)

From Stdlib Require Import ZArith List String Ascii Bool Lia.
From Stdlib Require Decimal DecimalString DecimalN DecimalPos.
Import DecimalString.
Import ListNotations.

#[local] Open Scope string_scope.
#[local] Open Scope Z_scope.

(** ** Python primitives used by the script *)

Module Py.

(** Truth value of an integer in a condition ([if n:]). *)
Definition truthy (n : Z) : bool := negb (n =? 0).

(** Number of elements of [range(start, stop, step)]. The script only uses
    steps [1] and [-1]; a zero step (a [ValueError] in Python) is given the
    empty range. *)
Definition range_len (start stop step : Z) : Z :=
  if 0 <? step then
    if start <? stop then (stop - start - 1) / step + 1 else 0
  else if step <? 0 then
    if stop <? start then (start - stop - 1) / (- step) + 1 else 0
  else 0.

(** [range(start, stop, step)], materialised. *)
Definition range (start stop step : Z) : list Z :=
  map (fun i => start + Z.of_nat i * step)
      (seq 0 (Z.to_nat (range_len start stop step))).

(** [divmod(a, b)] for a positive divisor: floor division and its
    non-negative remainder, which is what [Z.div] and [Z.modulo] compute. *)
Definition divmod (a b : Z) : Z * Z := (a / b, a mod b).

(** Decimal digits of the magnitude of an integer. *)
Definition digits (n : Z) : string :=
  NilZero.string_of_uint (N.to_uint (Z.abs_N n)).

(** The sign prefix of a formatted integer. *)
Definition sign (n : Z) : string := if n <? 0 then "-" else "".

(** [str(n)], also what [f"{n}"] interpolates. *)
Definition str (n : Z) : string := sign n ++ digits n.

Fixpoint zeros (k : nat) : string :=
  match k with
  | O => ""
  | S k' => String "0" (zeros k')
  end.

(** [f"{n:0{width}d}"]: the digits are padded with zeros, after the sign,
    up to a minimal total width; longer numbers are left as they are. *)
Definition format_0d (width : nat) (n : Z) : string :=
  sign n ++ zeros (width - length (sign n) - length (digits n)) ++ digits n.

(** [s.replace(old, new)] for single characters. *)
Fixpoint replace (old new : ascii) (s : string) : string :=
  match s with
  | EmptyString => EmptyString
  | String c s' => String (if Ascii.eqb c old then new else c) (replace old new s')
  end.

(** Control characters written by the script. *)
Definition BEL : ascii := "007"%char.
Definition LF : ascii := "010"%char.
Definition CR : ascii := "013"%char.

End Py.

(** ** Data model *)

Record TimerConfig : Type := mkTimerConfig {
  rounds : Z;
  round_seconds : Z;
  rest_seconds : Z;
  warmup_seconds : Z;
  bell : bool
}.

(** An interval as the generator yields it: a label and a duration. *)
Definition interval : Type := (string * Z)%type.

(** ** Pure functions of the script *)

Definition _format_time (seconds : Z) : string :=
  let '(minutes, secs) := Py.divmod seconds 60 in
  Py.format_0d 2 minutes ++ ":" ++ Py.format_0d 2 secs.

(** The label of a round, [f"Round {round_number}/{config.rounds}"]. *)
Definition round_label (config : TimerConfig) (round_number : Z) : string :=
  "Round " ++ Py.str round_number ++ "/" ++ Py.str (rounds config).

(** What one iteration of the loop of [_round_intervals] yields. *)
Definition round_body (config : TimerConfig) (round_number : Z) : list interval :=
  (round_label config round_number, round_seconds config)
  :: (if negb (round_number =? rounds config) && Py.truthy (rest_seconds config)
      then [("Rest", rest_seconds config)]
      else []).

(** [_round_intervals], as the list of everything the generator yields. The
    generator object itself is modelled further down ([Generator]) and shown
    to yield exactly this list. *)
Definition _round_intervals (config : TimerConfig) : list interval :=
  (if Py.truthy (warmup_seconds config)
   then [("Warmup", warmup_seconds config)]
   else [])
  ++ flat_map (round_body config) (Py.range 1 (rounds config + 1) 1).

(** ** The terminal and the exceptions

    Everything the script does to the outside world is one of four events.
    The trace lists the events that completed, oldest first. *)

Inductive event : Type :=
| Stdout_write (text : string)
| Stdout_flush
| Sleep (secs : Z)
| Stderr_write (text : string).

Inductive exn : Type :=
| KeyboardInterrupt
| SystemExit (code : Z).

(** [interrupt_in = Some k]: the user will press Ctrl+C when [k] more events
    have completed, so that the next one after them raises
    [KeyboardInterrupt] instead of taking place (a sleep is cut short, a
    write does not start). [None]: no interrupt is pending. An interrupt
    that finds no further event to strike at stays pending: what Python does
    with a Ctrl+C that arrives after the last event of a program (while an
    exhausted generator is resumed a last time, say) is outside this model,
    and the properties below speak of interrupts that strike at an event. *)
Record world : Type := mkWorld {
  trace : list event;
  interrupt_in : option nat
}.

Definition IO (A : Type) : Type := world -> (A + exn) * world.

Definition ret {A : Type} (a : A) : IO A := fun w => (inl a, w).

Definition bind {A B : Type} (m : IO A) (k : A -> IO B) : IO B :=
  fun w =>
    match m w with
    | (inl a, w') => k a w'
    | (inr e, w') => (inr e, w')
    end.

Definition raise {A : Type} (e : exn) : IO A := fun w => (inr e, w).

Declare Scope io_scope.
Delimit Scope io_scope with io.
Notation "x <- m ;; k" := (bind m (fun x => k))
  (at level 61, m at next level, right associativity) : io_scope.
Notation "m ;; k" := (bind m (fun _ => k))
  (at level 61, right associativity) : io_scope.
#[local] Open Scope io_scope.

(** One event, unless the pending interrupt strikes there. *)
Definition perform (e : event) : IO unit :=
  fun w =>
    match interrupt_in w with
    | Some O => (inr KeyboardInterrupt, mkWorld (trace w) None)
    | Some (S k) => (inl tt, mkWorld (trace w ++ [e]) (Some k))
    | None => (inl tt, mkWorld (trace w ++ [e]) None)
    end.

(** [for x in xs: body(x)]. *)
Fixpoint for_each {A : Type} (xs : list A) (body : A -> IO unit) : IO unit :=
  match xs with
  | [] => ret tt
  | x :: xs' => body x ;; for_each xs' body
  end.

(** [try: body / except KeyboardInterrupt: handler]. *)
Definition try_except_KeyboardInterrupt {A : Type} (body handler : IO A) : IO A :=
  fun w =>
    match body w with
    | (inr KeyboardInterrupt, w') => handler w'
    | r => r
    end.

(** A world with nothing printed yet and no interrupt to come, and one in
    which Ctrl+C strikes after [k] events. *)
Definition quiet : world := mkWorld [] None.
Definition interrupted_after (k : nat) : world := mkWorld [] (Some k).

(** What a program prints, and how it ends, when nothing interrupts it. *)
Definition trace_of {A : Type} (m : IO A) : list event := trace (snd (m quiet)).
Definition result_of {A : Type} (m : IO A) : A + exn := fst (m quiet).

(** ** Effectful functions of the script *)

Definition _play_bell (enabled : bool) : IO unit :=
  if enabled then
    perform (Stdout_write (String Py.BEL "")) ;;
    perform Stdout_flush
  else ret tt.

(** The text of one update of the status line. *)
Definition status_line (label : string) (remaining : Z) : string :=
  String Py.CR (label ++ ": " ++ _format_time remaining ++ "   ").

(** The body of the loop of [_countdown]. *)
Definition tick (label : string) (remaining : Z) : IO unit :=
  perform (Stdout_write (status_line label remaining)) ;;
  perform Stdout_flush ;;
  if 0 <? remaining then perform (Sleep 1) else ret tt.

Definition _countdown (label : string) (seconds : Z) (bell : bool) : IO unit :=
  for_each (Py.range seconds (-1) (-1)) (tick label) ;;
  perform (Stdout_write (String Py.LF "")) ;;
  _play_bell bell.

Definition stopped_notice : string :=
  String Py.LF ("Timer stopped." ++ String Py.LF "").

Definition run_timer (config : TimerConfig) : IO unit :=
  try_except_KeyboardInterrupt
    (for_each (_round_intervals config)
       (fun '(label, seconds) => _countdown label seconds (bell config)))
    (perform (Stdout_write stopped_notice)).

(** ** Command line

    [argparse] is a library: what it computes from [argv] is taken as given.
    [Args.t] is the namespace [parser.parse_args(argv)] returns, with the
    four integers already converted by [type=int]; [ArgumentParser] keeps of
    the parser the two texts [parser.error] prints, which [argparse] derives
    from the program name and the declared options. *)

Module Args.

Record t : Type := mk {
  rounds : Z;
  round_seconds : Z;
  rest_seconds : Z;
  warmup_seconds : Z;
  no_bell : bool
}.

(** The defaults declared in [_build_parser]: the namespace of an empty
    command line. *)
Definition defaults : t := mk 3 180 60 10 false.

End Args.

Record ArgumentParser : Type := mkArgumentParser {
  prog : string;
  usage : string
}.

(** [parser.error(message)]: the usage text and the message on the error
    stream, then exit status 2. *)
Definition parser_error {A : Type} (parser : ArgumentParser) (message : string) : IO A :=
  perform (Stderr_write (usage parser)) ;;
  perform (Stderr_write (prog parser ++ ": error: " ++ message ++ String Py.LF "")) ;;
  raise (SystemExit 2).

(** The names the validation loop of [parse_args] goes through. *)
Definition duration_names : list string :=
  ["round_seconds"; "rest_seconds"; "warmup_seconds"].

(** [getattr(args, name)] on the integer attributes of the namespace. Any
    other name has no integer attribute; the loop never asks for one. *)
Definition getattr (args : Args.t) (name : string) : Z :=
  if String.eqb name "rounds" then Args.rounds args
  else if String.eqb name "round_seconds" then Args.round_seconds args
  else if String.eqb name "rest_seconds" then Args.rest_seconds args
  else if String.eqb name "warmup_seconds" then Args.warmup_seconds args
  else 0.

Definition parse_args (parser : ArgumentParser) (args : Args.t) : IO TimerConfig :=
  (if Args.rounds args <? 1
   then parser_error parser "--rounds must be at least 1"
   else ret tt) ;;
  for_each duration_names
    (fun name =>
       let value := getattr args name in
       if value <? 0
       then parser_error parser
              ("--" ++ Py.replace "_" "-" name ++ " cannot be negative")
       else ret tt) ;;
  ret (mkTimerConfig (Args.rounds args) (Args.round_seconds args)
         (Args.rest_seconds args) (Args.warmup_seconds args)
         (negb (Args.no_bell args))).

Definition main (parser : ArgumentParser) (args : Args.t) : IO Z :=
  config <- parse_args parser args ;;
  run_timer config ;;
  ret 0.

(** [raise SystemExit(main())]: the script as a whole; it always ends in an
    exception, whose code is the exit status of the process. *)
Definition script (parser : ArgumentParser) (args : Args.t) : IO Empty_set :=
  status <- main parser args ;;
  raise (SystemExit status).

(** ** The generator object

    [_round_intervals(config)] returns a generator: a suspended frame that
    [next] resumes up to the following [yield]. The frame records where the
    body is suspended together with its locals: the reference [config] it
    was called with, the loop variable and what is left of the iterator over
    [range(1, config.rounds + 1)].

    The configuration is a Python object: [TimerConfig] is a dataclass that
    is not frozen, so it lives in the heap, can be written to, and is shared
    by everything that holds a reference to it. The generator does not copy
    it; it reads an attribute each time the body mentions one. Its code is
    therefore embedded as heap-passing code. *)

Module Generator.

Definition ref : Type := nat.

(** The heap: the configuration object behind each reference. *)
Definition heap : Type := ref -> TimerConfig.

(** Code that may read and write the heap. *)
Definition Heap (A : Type) : Type := heap -> A * heap.

Definition pure {A : Type} (a : A) : Heap A := fun h => (a, h).

Definition and_then {A B : Type} (m : Heap A) (k : A -> Heap B) : Heap B :=
  fun h => let (a, h') := m h in k a h'.

Declare Scope heap_scope.
Delimit Scope heap_scope with heap.
Notation "x <~ m ;; k" := (and_then m (fun x => k))
  (at level 61, m at next level, right associativity) : heap_scope.
#[local] Open Scope heap_scope.

(** [obj.attr], read from the heap when it is evaluated. *)
Definition read {A : Type} (obj : ref) (attr : TimerConfig -> A) : Heap A :=
  fun h => (attr (h obj), h).

(** [obj.rounds = n]: what any holder of the reference may do to the object.
    The generator never does; a caller could. *)
Definition assign_rounds (obj : ref) (n : Z) : Heap unit :=
  fun h =>
    (tt,
     fun r =>
       if Nat.eqb r obj
       then mkTimerConfig n (round_seconds (h r)) (rest_seconds (h r))
              (warmup_seconds (h r)) (bell (h r))
       else h r).

(** Where the body is suspended. *)
Inductive point : Type :=
| Created
| At_warmup_yield
| At_round_yield (round_number : Z) (pending : list Z)
| At_rest_yield (pending : list Z)
| Finished.

Record frame : Type := mkFrame {
  config_ref : ref;
  at_point : point
}.

(** The generator object a call [_round_intervals(config)] returns. *)
Definition create (config : ref) : frame := mkFrame config Created.

(** Resuming at the head of the [for] loop: the iterator is asked for the
    next round number, and line 50 reads the two attributes it yields. *)
Definition loop_head (config : ref) (pending : list Z)
  : Heap (option interval * frame) :=
  match pending with
  | [] => pure (None, mkFrame config Finished)
  | round_number :: pending' =>
      n <~ read config rounds ;;
      secs <~ read config round_seconds ;;
      pure (Some (("Round " ++ Py.str round_number ++ "/" ++ Py.str n)%string, secs),
            mkFrame config (At_round_yield round_number pending'))
  end.

(** Entering the loop: [range(1, config.rounds + 1)] is built once. *)
Definition enter_loop (config : ref) : Heap (option interval * frame) :=
  n <~ read config rounds ;;
  loop_head config (Py.range 1 (n + 1) 1).

(** [round_number != config.rounds and config.rest_seconds], as a truth
    value: the second attribute is read only when the first test holds. *)
Definition rest_wanted (config : ref) (round_number : Z) : Heap bool :=
  n <~ read config rounds ;;
  if negb (round_number =? n)
  then r <~ read config rest_seconds ;; pure (Py.truthy r)
  else pure false.

(** [next(gen)]: the yielded interval, or [None] for [StopIteration]. *)
Definition next (f : frame) : Heap (option interval * frame) :=
  let config := config_ref f in
  match at_point f with
  | Created =>
      w <~ read config warmup_seconds ;;
      if Py.truthy w
      then
        secs <~ read config warmup_seconds ;;
        pure (Some ("Warmup", secs), mkFrame config At_warmup_yield)
      else enter_loop config
  | At_warmup_yield => enter_loop config
  | At_round_yield round_number pending =>
      wanted <~ rest_wanted config round_number ;;
      if wanted
      then
        secs <~ read config rest_seconds ;;
        pure (Some ("Rest", secs), mkFrame config (At_rest_yield pending))
      else loop_head config pending
  | At_rest_yield pending => loop_head config pending
  | Finished => pure (None, f)
  end.

(** [list(gen)], with a bound on the number of calls to [next]; [None] when
    the bound is reached first. *)
Fixpoint to_list (fuel : nat) (f : frame) (h : heap)
  : option (list interval * heap) :=
  match fuel with
  | O => None
  | S fuel' =>
      match next f h with
      | ((None, _), h') => Some ([], h')
      | ((Some x, f'), h') =>
          match to_list fuel' f' h' with
          | Some (l, h'') => Some (x :: l, h'')
          | None => None
          end
      end
  end.

(** The producer invoked twice, one call after the other has been consumed:
    [a = list(_round_intervals(first)); b = list(_round_intervals(second))],
    the second on the heap the first has left. *)
Definition list_twice (fuel : nat) (first second : ref) (h : heap)
  : option (list interval * list interval * heap) :=
  match to_list fuel (create first) h with
  | Some (a, h') =>
      match to_list fuel (create second) h' with
      | Some (b, h'') => Some (a, b, h'')
      | None => None
      end
  | None => None
  end.

(** A consumer holds one generator object and what it has drawn from it. *)
Record consumer : Type := mkConsumer {
  gen : frame;
  seen : list interval
}.

Definition fresh (config : ref) : consumer := mkConsumer (create config) [].

Definition pull (c : consumer) : Heap consumer :=
  r <~ next (gen c) ;;
  match r with
  | (Some x, f') => pure (mkConsumer f' (seen c ++ [x]))
  | (None, f') => pure (mkConsumer f' (seen c))
  end.

(** Two consumers, each with its own generator object, advanced on the one
    heap in the order a schedule prescribes ([true]: the first one). *)
Fixpoint interleave (schedule : list bool) (a b : consumer)
  : Heap (consumer * consumer) :=
  match schedule with
  | [] => pure (a, b)
  | true :: schedule' => a' <~ pull a ;; interleave schedule' a' b
  | false :: schedule' => b' <~ pull b ;; interleave schedule' a b'
  end.

(** Two configurations with the same four settings. *)
Definition same_settings (c1 c2 : TimerConfig) : Prop :=
  rounds c1 = rounds c2 /\ round_seconds c1 = round_seconds c2
  /\ rest_seconds c1 = rest_seconds c2 /\ warmup_seconds c1 = warmup_seconds c2.

(** What a frame has yet to yield, as long as the heap stays as it is. *)
Definition remaining (h : heap) (f : frame) : list interval :=
  let c := h (config_ref f) in
  match at_point f with
  | Created => _round_intervals c
  | At_warmup_yield => flat_map (round_body c) (Py.range 1 (rounds c + 1) 1)
  | At_round_yield round_number pending =>
      tl (round_body c round_number) ++ flat_map (round_body c) pending
  | At_rest_yield pending => flat_map (round_body c) pending
  | Finished => []
  end.

(** What a consumer has seen and what its generator has yet to yield make up
    the whole sequence of its configuration. *)
Definition in_step (h : heap) (a : consumer) : Prop :=
  (seen a ++ remaining h (gen a))%list = _round_intervals (h (config_ref (gen a))).

End Generator.

(** ** Vocabulary of the specification *)

(** A valid configuration: what the command line lets through. *)
Definition valid_config (c : TimerConfig) : Prop :=
  1 <= rounds c /\ 0 <= round_seconds c /\ 0 <= rest_seconds c
  /\ 0 <= warmup_seconds c.

Definition valid_args (a : Args.t) : Prop :=
  1 <= Args.rounds a /\ 0 <= Args.round_seconds a /\ 0 <= Args.rest_seconds a
  /\ 0 <= Args.warmup_seconds a.

(** The configuration a valid command line stands for. *)
Definition config_of_args (a : Args.t) : TimerConfig :=
  mkTimerConfig (Args.rounds a) (Args.round_seconds a) (Args.rest_seconds a)
    (Args.warmup_seconds a) (negb (Args.no_bell a)).

(** The interval sequence in the words of the specification: the rounds
    numbered upwards from [index], [left] of them still to come, each but the
    last followed by a rest when the rest is positive. *)
Fixpoint spec_rounds (c : TimerConfig) (index : Z) (left : nat) : list interval :=
  match left with
  | O => []
  | S left' =>
      ("Round " ++ Py.str index ++ "/" ++ Py.str (rounds c), round_seconds c)
      :: (match left' with
          | O => []
          | S _ => if 0 <? rest_seconds c then [("Rest", rest_seconds c)] else []
          end
          ++ spec_rounds c (index + 1) left')
  end.

Definition spec_intervals (c : TimerConfig) : list interval :=
  (if 0 <? warmup_seconds c then [("Warmup", warmup_seconds c)] else [])
  ++ spec_rounds c 1 (Z.to_nat (rounds c)).

(** Total duration of a sequence of intervals. *)
Definition total_seconds (l : list interval) : Z :=
  fold_right (fun iv acc => snd iv + acc) 0 l.

(** The value of a string of decimal digits, read from the left; [None] when
    the string is empty or holds anything but digits. *)
Definition digit_value (c : ascii) : option Z :=
  let n := Z.of_nat (nat_of_ascii c) in
  if (48 <=? n) && (n <=? 57) then Some (n - 48) else None.

Fixpoint decimal_value_from (acc : Z) (s : string) : option Z :=
  match s with
  | EmptyString => Some acc
  | String c s' =>
      match digit_value c with
      | Some d => decimal_value_from (10 * acc + d) s'
      | None => None
      end
  end.

Definition decimal_value (s : string) : option Z :=
  match s with
  | EmptyString => None
  | _ => decimal_value_from 0 s
  end.

(** The value of a decimal numeral, most significant digit first, continuing
    from an accumulator. *)
Fixpoint uint_value (d : Decimal.uint) (acc : Z) : Z :=
  match d with
  | Decimal.Nil => acc
  | Decimal.D0 d' => uint_value d' (10 * acc)
  | Decimal.D1 d' => uint_value d' (10 * acc + 1)
  | Decimal.D2 d' => uint_value d' (10 * acc + 2)
  | Decimal.D3 d' => uint_value d' (10 * acc + 3)
  | Decimal.D4 d' => uint_value d' (10 * acc + 4)
  | Decimal.D5 d' => uint_value d' (10 * acc + 5)
  | Decimal.D6 d' => uint_value d' (10 * acc + 6)
  | Decimal.D7 d' => uint_value d' (10 * acc + 7)
  | Decimal.D8 d' => uint_value d' (10 * acc + 8)
  | Decimal.D9 d' => uint_value d' (10 * acc + 9)
  end.

(** Two-digit fields: the check run over every value below one hundred. *)
Definition two_digits_ok (n : Z) : bool :=
  (String.length (Py.format_0d 2 n) =? 2)%nat
  && match decimal_value (Py.format_0d 2 n) with
     | Some v => v =? n
     | None => false
     end.

(** The pure trace of a countdown: what the terminal sees when nothing
    interrupts it. *)
Definition tick_events (label : string) (remaining : Z) : list event :=
  [Stdout_write (status_line label remaining); Stdout_flush]
  ++ (if 0 <? remaining then [Sleep 1] else []).

Definition bell_events (enabled : bool) : list event :=
  if enabled then [Stdout_write (String Py.BEL ""); Stdout_flush] else [].

Definition countdown_events (label : string) (seconds : Z) (bell : bool)
  : list event :=
  flat_map (tick_events label) (Py.range seconds (-1) (-1))
  ++ [Stdout_write (String Py.LF "")] ++ bell_events bell.

Definition session_events (config : TimerConfig) : list event :=
  flat_map (fun iv : interval => countdown_events (fst iv) (snd iv) (bell config))
    (_round_intervals config).

(** The countdown in the words of the specification: an update for every
    remaining second from [d] down to zero, a one-second sleep after each
    update but the one that shows zero. *)
Fixpoint spec_countdown (label : string) (d : nat) : list event :=
  match d with
  | O => [Stdout_write (status_line label 0); Stdout_flush]
  | S d' =>
      [Stdout_write (status_line label (Z.of_nat d)); Stdout_flush; Sleep 1]
      ++ spec_countdown label d'
  end.

(** The remaining seconds a countdown from [d] goes through. *)
Fixpoint descending (d : nat) : list Z :=
  match d with
  | O => [0]
  | S d' => Z.of_nat d :: descending d'
  end.

(** Status-line updates are the writes that start with a carriage return. *)
Definition is_update (e : event) : bool :=
  match e with
  | Stdout_write (String c _) => Ascii.eqb c Py.CR
  | _ => false
  end.

Definition is_sleep (e : event) : bool :=
  match e with
  | Sleep _ => true
  | _ => false
  end.

(** Everything written to standard output, and the bells in a text. *)
Fixpoint stdout_text (t : list event) : string :=
  match t with
  | [] => ""
  | Stdout_write s :: t' => s ++ stdout_text t'
  | _ :: t' => stdout_text t'
  end.

Fixpoint bells (s : string) : nat :=
  match s with
  | EmptyString => O
  | String c s' => ((if Ascii.eqb c Py.BEL then 1 else 0) + bells s')%nat
  end.

(** A program behaves as [(events, result)] when, started from any trace, it
    appends [events] and ends in [result] if no interrupt strikes before it
    is through, and otherwise stops with [KeyboardInterrupt] after the events
    that completed before the interrupt. *)
Definition behaves {A : Type} (m : IO A) (events : list event) (result : A + exn)
  : Prop :=
  forall t : list event,
    m (mkWorld t None) = (result, mkWorld (t ++ events) None)
    /\ forall k : nat,
         m (mkWorld t (Some k))
         = if (k <? List.length events)%nat
           then (inr KeyboardInterrupt, mkWorld (t ++ firstn k events) None)
           else (result, mkWorld (t ++ events) (Some (k - List.length events)%nat)).

(** ** Vocabulary of the further properties *)

(** Reading a displayed time back: the text before and after the first
    separator, then minutes and seconds as decimal numbers. *)
Fixpoint split_at (sep : ascii) (s : string) : option (string * string) :=
  match s with
  | EmptyString => None
  | String ch s' =>
      if Ascii.eqb ch sep then Some (EmptyString, s')
      else match split_at sep s' with
           | Some (before, after) => Some (String ch before, after)
           | None => None
           end
  end.

Definition parse_time (s : string) : option Z :=
  match split_at ":" s with
  | Some (mm, ss) =>
      match decimal_value mm, decimal_value ss with
      | Some m, Some sec => Some (60 * m + sec)
      | _, _ => None
      end
  | None => None
  end.

(** The seconds a trace spends asleep. *)
Fixpoint slept (t : list event) : Z :=
  match t with
  | [] => 0
  | Sleep secs :: t' => secs + slept t'
  | _ :: t' => slept t'
  end.

(** Occurrences of a character in a text. *)
Fixpoint count_char (ch : ascii) (s : string) : nat :=
  match s with
  | EmptyString => O
  | String d s' => ((if Ascii.eqb d ch then 1 else 0) + count_char ch s')%nat
  end.

(** A text without control characters. *)
Fixpoint printable (s : string) : bool :=
  match s with
  | EmptyString => true
  | String d s' => (32 <=? nat_of_ascii d)%nat && printable s'
  end.

(** Every sleep of a trace comes directly after a flush of standard
    output; [flushed] tells whether the event just before was one. *)
Fixpoint sleeps_follow_flush (flushed : bool) (t : list event) : bool :=
  match t with
  | [] => true
  | Sleep _ :: t' => flushed && sleeps_follow_flush false t'
  | Stdout_flush :: t' => sleeps_follow_flush true t'
  | _ :: t' => sleeps_follow_flush false t'
  end.

(** * Properties *)

(** ** [range] *)

Section Range.

Lemma range_len_up (start stop : Z) :
  Py.range_len start stop 1 = Z.max 0 (stop - start).
Proof.
  unfold Py.range_len. simpl.
  destruct (start <? stop) eqn:E.
  - apply Z.ltb_lt in E. rewrite Z.div_1_r. lia.
  - apply Z.ltb_ge in E. lia.
Qed.

Lemma range_len_down (start stop : Z) :
  Py.range_len start stop (-1) = Z.max 0 (start - stop).
Proof.
  unfold Py.range_len. simpl.
  destruct (stop <? start) eqn:E.
  - apply Z.ltb_lt in E. rewrite Z.div_1_r. lia.
  - apply Z.ltb_ge in E. lia.
Qed.

Lemma map_seq_from (f : nat -> Z) (n : nat) :
  map f (seq 0 (S n)) = f O :: map (fun i => f (S i)) (seq 0 n).
Proof.
  simpl. f_equal. rewrite <- seq_shift, map_map. reflexivity.
Qed.

Lemma range_up_nil (start stop : Z) :
  stop <= start -> Py.range start stop 1 = [].
Proof.
  intros H. unfold Py.range. rewrite range_len_up.
  replace (Z.max 0 (stop - start)) with 0 by lia. reflexivity.
Qed.

Lemma range_up_cons (start stop : Z) :
  start < stop -> Py.range start stop 1 = start :: Py.range (start + 1) stop 1.
Proof.
  intros H. unfold Py.range. rewrite !range_len_up.
  replace (Z.to_nat (Z.max 0 (stop - start)))
    with (S (Z.to_nat (Z.max 0 (stop - (start + 1))))) by lia.
  rewrite map_seq_from. f_equal.
  - simpl. lia.
  - apply map_ext. intros i. lia.
Qed.

Lemma range_down_nil (start stop : Z) :
  start <= stop -> Py.range start stop (-1) = [].
Proof.
  intros H. unfold Py.range. rewrite range_len_down.
  replace (Z.max 0 (start - stop)) with 0 by lia. reflexivity.
Qed.

Lemma range_down_cons (start stop : Z) :
  stop < start ->
  Py.range start stop (-1) = start :: Py.range (start - 1) stop (-1).
Proof.
  intros H. unfold Py.range. rewrite !range_len_down.
  replace (Z.to_nat (Z.max 0 (start - stop)))
    with (S (Z.to_nat (Z.max 0 (start - 1 - stop)))) by lia.
  rewrite map_seq_from. f_equal.
  - simpl. lia.
  - apply map_ext. intros i. lia.
Qed.

(** The countdown range is the descending list of the specification. *)
Lemma range_countdown (d : nat) :
  Py.range (Z.of_nat d) (-1) (-1) = descending d.
Proof.
  induction d as [|d IH].
  - reflexivity.
  - rewrite range_down_cons by lia.
    replace (Z.of_nat (S d) - 1) with (Z.of_nat d) by lia.
    rewrite IH. reflexivity.
Qed.

End Range.

(** ** The interval sequence *)

Section Producer.

Variable c : TimerConfig.

Lemma truthy_positive (n : Z) : 0 <= n -> Py.truthy n = (0 <? n).
Proof.
  intros H. unfold Py.truthy.
  destruct (Z.eqb_spec n 0), (Z.ltb_spec 0 n); simpl; try reflexivity; lia.
Qed.

(** The loop of the generator, entered at [index] with [left] rounds to go,
    yields what the specification lists. *)
Lemma loop_spec_rounds (left : nat) (index : Z) :
  0 <= rest_seconds c ->
  index + Z.of_nat left = rounds c + 1 ->
  flat_map (round_body c) (Py.range index (rounds c + 1) 1)
  = spec_rounds c index left.
Proof.
  intros Hrest. revert index.
  induction left as [|left IH]; intros index Hidx.
  - rewrite range_up_nil by lia. reflexivity.
  - rewrite range_up_cons by lia.
    cbn [flat_map spec_rounds]. rewrite IH by lia.
    unfold round_body, round_label. cbn [app]. f_equal.
    rewrite truthy_positive by assumption.
    destruct left as [|left'].
    + replace (index =? rounds c) with true by (symmetry; apply Z.eqb_eq; lia).
      reflexivity.
    + replace (index =? rounds c) with false by (symmetry; apply Z.eqb_neq; lia).
      reflexivity.
Qed.

Lemma round_intervals_spec :
  valid_config c -> _round_intervals c = spec_intervals c.
Proof.
  intros (Hr & _ & Hrest & Hw).
  unfold _round_intervals, spec_intervals.
  rewrite truthy_positive by assumption.
  rewrite (loop_spec_rounds (Z.to_nat (rounds c)) 1) by lia.
  reflexivity.
Qed.

Lemma spec_rounds_length (left : nat) (index : Z) :
  Z.of_nat (List.length (spec_rounds c index left))
  = Z.of_nat left
    + (if 0 <? rest_seconds c then Z.max 0 (Z.of_nat left - 1) else 0).
Proof.
  revert index. induction left as [|left IH]; intros index.
  - simpl. destruct (0 <? rest_seconds c); reflexivity.
  - cbn [spec_rounds]. cbn [List.length]. rewrite length_app, Nat2Z.inj_succ, Nat2Z.inj_add, IH.
    destruct left as [|left']; destruct (0 <? rest_seconds c); cbn [List.length]; lia.
Qed.

Lemma total_seconds_cons (x : interval) (l : list interval) :
  total_seconds (x :: l) = snd x + total_seconds l.
Proof. reflexivity. Qed.

Lemma total_seconds_app (l1 l2 : list interval) :
  total_seconds (l1 ++ l2) = total_seconds l1 + total_seconds l2.
Proof.
  induction l1 as [|x l1 IH].
  - reflexivity.
  - cbn [app]. rewrite !total_seconds_cons, IH. lia.
Qed.

Lemma spec_rounds_total (left : nat) (index : Z) :
  0 <= rest_seconds c ->
  total_seconds (spec_rounds c index left)
  = Z.of_nat left * round_seconds c
    + Z.max 0 (Z.of_nat left - 1) * rest_seconds c.
Proof.
  intros Hrest. revert index. induction left as [|left IH]; intros index.
  - simpl. lia.
  - cbn [spec_rounds].
    rewrite total_seconds_cons, total_seconds_app, IH. cbn [snd].
    destruct left as [|left'].
    + change (total_seconds []) with 0.
      change (Z.max 0 (Z.of_nat 0 - 1)) with 0.
      change (Z.max 0 (Z.of_nat 1 - 1)) with 0.
      change (Z.of_nat 0) with 0. change (Z.of_nat 1) with 1. lia.
    + replace (Z.max 0 (Z.of_nat (S (S left')) - 1)) with (Z.of_nat (S left')) by lia.
      replace (Z.max 0 (Z.of_nat (S left') - 1)) with (Z.of_nat (S left') - 1) by lia.
      replace (Z.of_nat (S (S left'))) with (Z.of_nat (S left') + 1) by lia.
      destruct (Z.ltb_spec 0 (rest_seconds c)).
      * rewrite total_seconds_cons. cbn [snd].
        change (total_seconds []) with 0. ring.
      * assert (rest_seconds c = 0) as -> by lia.
        change (total_seconds []) with 0. ring.
Qed.

Lemma spec_rounds_In (left : nat) (index i : Z) :
  index <= i < index + Z.of_nat left ->
  In ("Round " ++ Py.str i ++ "/" ++ Py.str (rounds c), round_seconds c)
     (spec_rounds c index left).
Proof.
  revert index. induction left as [|left IH]; intros index Hi.
  - lia.
  - cbn [spec_rounds].
    destruct (Z.eq_dec i index) as [->|Hne].
    + left. reflexivity.
    + right. apply in_or_app. right. apply IH. lia.
Qed.

End Producer.

(** The configuration of the worked example of the specification, and the
    smallest session there is. *)
Lemma example_config_valid : valid_config (mkTimerConfig 2 5 3 2 true).
Proof. unfold valid_config. cbn. lia. Qed.

Lemma minimal_config_valid : valid_config (mkTimerConfig 1 0 0 0 true).
Proof. unfold valid_config. cbn. lia. Qed.

(** C1. For every valid configuration the producer emits
    [(1 if warmup_seconds > 0 else 0) + rounds
     + (rounds - 1 if rest_seconds > 0 else 0)] intervals. *)
Theorem interval_count (c : TimerConfig) :
  valid_config c ->
  Z.of_nat (List.length (_round_intervals c))
  = (if 0 <? warmup_seconds c then 1 else 0)
    + rounds c
    + (if 0 <? rest_seconds c then rounds c - 1 else 0).
Proof.
  intros Hv. rewrite (round_intervals_spec c Hv).
  destruct Hv as (Hr & _ & _ & _).
  unfold spec_intervals.
  rewrite length_app, Nat2Z.inj_add, spec_rounds_length.
  destruct (0 <? warmup_seconds c), (0 <? rest_seconds c); cbn [List.length]; lia.
Qed.

Lemma interval_count_witness :
  valid_config (mkTimerConfig 2 5 3 2 true)
  /\ Z.of_nat (List.length (_round_intervals (mkTimerConfig 2 5 3 2 true))) = 4.
Proof.
  split.
  - exact example_config_valid.
  - exact (interval_count (mkTimerConfig 2 5 3 2 true) example_config_valid).
Defined.

(** C2. For every valid configuration the producer emits, in this order: the
    warmup interval when [warmup_seconds > 0]; then for each round index [i]
    from 1 to [rounds] the interval [("Round i/rounds", round_seconds)],
    followed after every round but the last, when [rest_seconds > 0], by
    [("Rest", rest_seconds)]. That is the list [spec_intervals]. In
    particular the worked example of the specification yields its four
    intervals, with no trailing rest. *)
Theorem interval_sequence (c : TimerConfig) :
  valid_config c ->
  _round_intervals c = spec_intervals c
  /\ forall b : bool,
       _round_intervals (mkTimerConfig 2 5 3 2 b)
       = [("Warmup", 2); ("Round 1/2", 5); ("Rest", 3); ("Round 2/2", 5)].
Proof.
  intros Hv. split.
  - exact (round_intervals_spec c Hv).
  - intros b. reflexivity.
Qed.

Lemma interval_sequence_witness :
  valid_config (mkTimerConfig 2 5 3 2 true)
  /\ _round_intervals (mkTimerConfig 2 5 3 2 true)
     = [("Warmup", 2); ("Round 1/2", 5); ("Rest", 3); ("Round 2/2", 5)].
Proof.
  split.
  - exact example_config_valid.
  - exact (proj1 (interval_sequence (mkTimerConfig 2 5 3 2 true)
                    example_config_valid)).
Defined.

(** C7. The configuration with one round and every duration zero yields
    exactly one interval, [("Round 1/1", 0)]; and in general every round of a
    valid configuration is emitted with its duration, zero included. *)
Theorem zero_duration_rounds_emitted (c : TimerConfig) (i : Z) :
  valid_config c ->
  1 <= i <= rounds c ->
  (forall b : bool, _round_intervals (mkTimerConfig 1 0 0 0 b) = [("Round 1/1", 0)])
  /\ In ("Round " ++ Py.str i ++ "/" ++ Py.str (rounds c), round_seconds c)
        (_round_intervals c)
  /\ (round_seconds c = 0 ->
      In ("Round " ++ Py.str i ++ "/" ++ Py.str (rounds c), 0)
         (_round_intervals c)).
Proof.
  intros Hv Hi.
  assert (In ("Round " ++ Py.str i ++ "/" ++ Py.str (rounds c), round_seconds c)
             (_round_intervals c)) as Hin.
  { rewrite (round_intervals_spec c Hv). unfold spec_intervals.
    apply in_or_app. right. apply spec_rounds_In. lia. }
  split; [intros b; reflexivity | split].
  - exact Hin.
  - intros H0. rewrite H0 in Hin. exact Hin.
Qed.

Lemma zero_duration_rounds_emitted_witness :
  valid_config (mkTimerConfig 1 0 0 0 true)
  /\ 1 <= 1 <= rounds (mkTimerConfig 1 0 0 0 true)
  /\ _round_intervals (mkTimerConfig 1 0 0 0 true) = [("Round 1/1", 0)]
  /\ In ("Round 1/1", 0) (_round_intervals (mkTimerConfig 1 0 0 0 true)).
Proof.
  assert (1 <= 1 <= rounds (mkTimerConfig 1 0 0 0 true)) as Hi by (cbn; lia).
  split; [exact minimal_config_valid | split; [exact Hi | ]].
  destruct (zero_duration_rounds_emitted (mkTimerConfig 1 0 0 0 true) 1
              minimal_config_valid Hi) as (Hone & _ & Hzero).
  split; [exact (Hone true) | exact (Hzero eq_refl)].
Defined.

(** C10. For every valid configuration the durations of the emitted
    intervals add up to
    [warmup_seconds + rounds * round_seconds + (rounds - 1) * rest_seconds]:
    the warmup and the rests that are left out have duration zero. *)
Theorem total_session_seconds (c : TimerConfig) :
  valid_config c ->
  total_seconds (_round_intervals c)
  = warmup_seconds c + rounds c * round_seconds c
    + (rounds c - 1) * rest_seconds c.
Proof.
  intros Hv. rewrite (round_intervals_spec c Hv).
  destruct Hv as (Hr & _ & Hrest & Hw).
  unfold spec_intervals.
  rewrite total_seconds_app, spec_rounds_total by assumption.
  replace (Z.max 0 (Z.of_nat (Z.to_nat (rounds c)) - 1)) with (rounds c - 1) by lia.
  rewrite Z2Nat.id by lia.
  destruct (Z.ltb_spec 0 (warmup_seconds c)).
  - rewrite total_seconds_cons. cbn [snd]. change (total_seconds []) with 0. ring.
  - assert (warmup_seconds c = 0) as -> by lia. change (total_seconds []) with 0. ring.
Qed.

Lemma total_session_seconds_witness :
  valid_config (mkTimerConfig 2 5 3 2 true)
  /\ total_seconds (_round_intervals (mkTimerConfig 2 5 3 2 true)) = 15.
Proof.
  split.
  - exact example_config_valid.
  - exact (total_session_seconds (mkTimerConfig 2 5 3 2 true) example_config_valid).
Defined.

(** ** The monad: how programs behave under an interrupt *)

Section Behaviour.

Context {A B : Type}.

Lemma behaves_ret (a : A) : behaves (ret a) [] (inl a).
Proof.
  intros t. unfold ret. rewrite app_nil_r. split.
  - reflexivity.
  - intros k. cbn. rewrite Nat.sub_0_r. reflexivity.
Qed.

Lemma behaves_raise (e : exn) : behaves (@raise A e) [] (inr e).
Proof.
  intros t. unfold raise. rewrite app_nil_r. split.
  - reflexivity.
  - intros k. cbn. rewrite Nat.sub_0_r. reflexivity.
Qed.

Lemma behaves_bind (m : IO A) (k : A -> IO B) ev1 ev2 (a : A) (r : B + exn) :
  behaves m ev1 (inl a) ->
  behaves (k a) ev2 r ->
  behaves (bind m k) (ev1 ++ ev2) r.
Proof.
  intros Hm Hk t. destruct (Hm t) as [Hm0 Hmk].
  destruct (Hk (t ++ ev1)%list) as [Hk0 Hkk].
  unfold bind. split.
  - rewrite Hm0, Hk0, app_assoc. reflexivity.
  - intros n. rewrite Hmk, length_app.
    destruct (Nat.ltb_spec n (List.length ev1)) as [Hlt|Hge].
    + replace (n <? List.length ev1 + List.length ev2)%nat with true
        by (symmetry; apply Nat.ltb_lt; lia).
      rewrite firstn_app.
      replace (n - List.length ev1)%nat with O by lia.
      cbn [firstn]. rewrite app_nil_r. reflexivity.
    + rewrite Hkk.
      rewrite firstn_app, (firstn_all2 (n := n) ev1) by lia.
      rewrite !app_assoc.
      destruct (Nat.ltb_spec (n - List.length ev1) (List.length ev2)).
      * replace (n <? List.length ev1 + List.length ev2)%nat with true
          by (symmetry; apply Nat.ltb_lt; lia).
        reflexivity.
      * replace (n <? List.length ev1 + List.length ev2)%nat with false
          by (symmetry; apply Nat.ltb_ge; lia).
        rewrite Nat.sub_add_distr. reflexivity.
Qed.

Lemma behaves_bind_exn (m : IO A) (k : A -> IO B) ev (e : exn) :
  behaves m ev (inr e) -> behaves (bind m k) ev (inr e).
Proof.
  intros Hm t. destruct (Hm t) as [Hm0 Hmk]. unfold bind. split.
  - rewrite Hm0. reflexivity.
  - intros n. rewrite Hmk.
    destruct (n <? List.length ev)%nat; reflexivity.
Qed.

End Behaviour.

Lemma behaves_perform (e : event) : behaves (perform e) [e] (inl tt).
Proof.
  intros t. unfold perform. split.
  - reflexivity.
  - intros [|k]; cbn.
    + rewrite app_nil_r. reflexivity.
    + rewrite Nat.sub_0_r. reflexivity.
Qed.

Lemma behaves_for_each {X : Type} (body : X -> IO unit)
    (events : X -> list event) (xs : list X) :
  (forall x, behaves (body x) (events x) (inl tt)) ->
  behaves (for_each xs body) (flat_map events xs) (inl tt).
Proof.
  intros Hbody. induction xs as [|x xs IH]; cbn [for_each flat_map].
  - apply behaves_ret.
  - eapply behaves_bind; [apply Hbody | exact IH].
Qed.

(** Reading a behaviour off: the uninterrupted run. *)
Lemma behaves_quiet {X : Type} (m : IO X) ev r :
  behaves m ev r -> m quiet = (r, mkWorld ev None).
Proof. intros H. exact (proj1 (H [])). Qed.

Lemma behaves_trace_of {X : Type} (m : IO X) ev r :
  behaves m ev r -> trace_of m = ev.
Proof. intros H. unfold trace_of. rewrite (behaves_quiet m ev r H). reflexivity. Qed.

(** ** The countdown *)

Lemma play_bell_behaves (enabled : bool) :
  behaves (_play_bell enabled) (bell_events enabled) (inl tt).
Proof.
  destruct enabled; cbn [_play_bell bell_events].
  - apply (behaves_bind _ _ [_] [_] tt); apply behaves_perform.
  - apply behaves_ret.
Qed.

Lemma tick_behaves (label : string) (remaining : Z) :
  behaves (tick label remaining) (tick_events label remaining) (inl tt).
Proof.
  unfold tick, tick_events.
  apply (behaves_bind _ _ [_] _ tt); [apply behaves_perform|].
  apply (behaves_bind _ _ [_] _ tt); [apply behaves_perform|].
  destruct (0 <? remaining); [apply behaves_perform | apply behaves_ret].
Qed.

Lemma countdown_behaves (label : string) (seconds : Z) (bell : bool) :
  behaves (_countdown label seconds bell)
    (countdown_events label seconds bell) (inl tt).
Proof.
  unfold _countdown, countdown_events.
  eapply behaves_bind.
  - apply behaves_for_each. intros x. apply tick_behaves.
  - apply (behaves_bind _ _ [_] _ tt); [apply behaves_perform|].
    apply play_bell_behaves.
Qed.

Lemma session_behaves (config : TimerConfig) :
  behaves
    (for_each (_round_intervals config)
       (fun '(label, seconds) => _countdown label seconds (bell config)))
    (session_events config) (inl tt).
Proof.
  unfold session_events. apply behaves_for_each.
  intros [label seconds]. apply countdown_behaves.
Qed.

Lemma ticks_spec_countdown (label : string) (d : nat) :
  flat_map (tick_events label) (descending d) = spec_countdown label d.
Proof.
  induction d as [|d IH].
  - reflexivity.
  - cbn [descending flat_map spec_countdown]. rewrite IH.
    unfold tick_events.
    replace (0 <? Z.of_nat (S d)) with true by (symmetry; apply Z.ltb_lt; lia).
    reflexivity.
Qed.

Lemma countdown_events_spec (label : string) (seconds : Z) (bell : bool) :
  0 <= seconds ->
  countdown_events label seconds bell
  = (spec_countdown label (Z.to_nat seconds)
     ++ [Stdout_write (String Py.LF "")] ++ bell_events bell)%list.
Proof.
  intros H. unfold countdown_events.
  rewrite <- (Z2Nat.id seconds) at 1 by assumption.
  rewrite range_countdown, ticks_spec_countdown. reflexivity.
Qed.

Lemma descending_length (d : nat) : List.length (descending d) = S d.
Proof. induction d as [|d IH]; cbn [descending List.length]; congruence. Qed.

Lemma spec_countdown_updates (label : string) (d : nat) :
  filter is_update (spec_countdown label d)
  = map (fun r => Stdout_write (status_line label r)) (descending d).
Proof.
  induction d as [|d IH].
  - reflexivity.
  - cbn [spec_countdown descending map]. rewrite <- IH. reflexivity.
Qed.

Lemma spec_countdown_sleeps (label : string) (d : nat) :
  List.length (filter is_sleep (spec_countdown label d)) = d.
Proof.
  induction d as [|d IH].
  - reflexivity.
  - cbn [spec_countdown]. rewrite filter_app, length_app, IH. reflexivity.
Qed.

Lemma end_of_countdown_no_update (bell : bool) :
  filter is_update (Stdout_write (String Py.LF "") :: bell_events bell) = [].
Proof. destruct bell; reflexivity. Qed.

Lemma end_of_countdown_no_sleep (bell : bool) :
  filter is_sleep (Stdout_write (String Py.LF "") :: bell_events bell) = [].
Proof. destruct bell; reflexivity. Qed.

(** C3. For every label and duration [D >= 0] the countdown returns after
    exactly [D + 1] updates of the status line, showing the remaining seconds
    [D, D-1, ..., 0] in this order, with one sleep after each update whose
    remaining time is positive and none after the last ([D] sleeps in all);
    for [D = 0] there is the single update showing 00:00 and no sleep. *)
Theorem countdown_updates (label : string) (D : Z) (bell : bool) :
  0 <= D ->
  result_of (_countdown label D bell) = inl tt
  /\ trace_of (_countdown label D bell)
     = (spec_countdown label (Z.to_nat D)
        ++ Stdout_write (String Py.LF "") :: bell_events bell)%list
  /\ filter is_update (trace_of (_countdown label D bell))
     = map (fun r => Stdout_write (status_line label r)) (descending (Z.to_nat D))
  /\ Z.of_nat (List.length (filter is_update (trace_of (_countdown label D bell))))
     = D + 1
  /\ Z.of_nat (List.length (filter is_sleep (trace_of (_countdown label D bell))))
     = D
  /\ (D = 0 ->
      filter is_update (trace_of (_countdown label D bell))
      = [Stdout_write (String Py.CR (label ++ ": 00:00   "))]
      /\ filter is_sleep (trace_of (_countdown label D bell)) = []).
Proof.
  intros HD.
  pose proof (countdown_behaves label D bell) as Hb.
  assert (trace_of (_countdown label D bell)
          = (spec_countdown label (Z.to_nat D)
             ++ Stdout_write (String Py.LF "") :: bell_events bell)%list) as Ht.
  { rewrite (behaves_trace_of _ _ _ Hb). apply countdown_events_spec, HD. }
  split.
  { unfold result_of. rewrite (behaves_quiet _ _ _ Hb). reflexivity. }
  rewrite Ht. split; [reflexivity|].
  rewrite !filter_app, end_of_countdown_no_update, end_of_countdown_no_sleep.
  rewrite !app_nil_r, spec_countdown_updates, spec_countdown_sleeps.
  rewrite length_map, descending_length.
  split; [reflexivity|]. split; [lia|]. split; [lia|].
  intros ->. split; reflexivity.
Qed.

Lemma countdown_updates_witness :
  0 <= 2
  /\ filter is_update (trace_of (_countdown "Rest" 2 true))
     = [Stdout_write (String Py.CR "Rest: 00:02   ");
        Stdout_write (String Py.CR "Rest: 00:01   ");
        Stdout_write (String Py.CR "Rest: 00:00   ")]
  /\ Z.of_nat (List.length (filter is_sleep (trace_of (_countdown "Rest" 2 true))))
     = 2.
Proof.
  assert (0 <= 2) as H by lia.
  split; [exact H|].
  destruct (countdown_updates "Rest" 2 true H) as (_ & _ & Hu & _ & Hs & _).
  split; [exact Hu | exact Hs].
Defined.

(** ** The driver and the command line *)

Lemma run_timer_quiet (config : TimerConfig) (t : list event) :
  run_timer config (mkWorld t None)
  = (inl tt, mkWorld (t ++ session_events config) None).
Proof.
  unfold run_timer, try_except_KeyboardInterrupt.
  rewrite (proj1 (session_behaves config t)). reflexivity.
Qed.

Lemma run_timer_interrupted (config : TimerConfig) (t : list event) (k : nat) :
  (k < List.length (session_events config))%nat ->
  run_timer config (mkWorld t (Some k))
  = (inl tt,
     mkWorld (t ++ firstn k (session_events config)
                ++ [Stdout_write stopped_notice]) None).
Proof.
  intros Hk. unfold run_timer, try_except_KeyboardInterrupt.
  rewrite (proj2 (session_behaves config t) k).
  replace (k <? List.length (session_events config))%nat with true
    by (symmetry; apply Nat.ltb_lt; exact Hk).
  unfold perform. cbn. rewrite <- app_assoc. reflexivity.
Qed.

Lemma parse_args_accepts (parser : ArgumentParser) (args : Args.t) (w : world) :
  valid_args args ->
  parse_args parser args w = (inl (config_of_args args), w).
Proof.
  intros (Hr & Hs & Hrest & Hw).
  unfold parse_args, bind, duration_names. cbn [for_each].
  replace (Args.rounds args <? 1) with false by (symmetry; apply Z.ltb_ge; lia).
  unfold bind, ret. cbn.
  replace (Args.round_seconds args <? 0) with false by (symmetry; apply Z.ltb_ge; lia).
  replace (Args.rest_seconds args <? 0) with false by (symmetry; apply Z.ltb_ge; lia).
  replace (Args.warmup_seconds args <? 0) with false by (symmetry; apply Z.ltb_ge; lia).
  reflexivity.
Qed.

Lemma parser_error_quiet {X : Type} (parser : ArgumentParser) (message : string) :
  @parser_error X parser message quiet
  = (inr (SystemExit 2),
     mkWorld [Stderr_write (usage parser);
              Stderr_write (prog parser ++ ": error: " ++ message
                            ++ String Py.LF "")] None).
Proof. reflexivity. Qed.

Lemma parse_args_rejects (parser : ArgumentParser) (args : Args.t) :
  Args.rounds args < 1 \/ Args.round_seconds args < 0
  \/ Args.rest_seconds args < 0 \/ Args.warmup_seconds args < 0 ->
  exists message : string,
    parse_args parser args quiet
    = (inr (SystemExit 2),
       mkWorld [Stderr_write (usage parser);
                Stderr_write (prog parser ++ ": error: " ++ message
                              ++ String Py.LF "")] None).
Proof.
  intros Hbad.
  unfold parse_args, duration_names. cbn [for_each].
  change (getattr args "round_seconds") with (Args.round_seconds args).
  change (getattr args "rest_seconds") with (Args.rest_seconds args).
  change (getattr args "warmup_seconds") with (Args.warmup_seconds args).
  unfold bind, ret, parser_error, perform, raise, quiet. cbv zeta.
  cbn [interrupt_in trace app].
  destruct (Z.ltb_spec (Args.rounds args) 1) as [Hr|Hr];
    [eexists; reflexivity|].
  destruct (Z.ltb_spec (Args.round_seconds args) 0) as [Hs|Hs];
    [eexists; reflexivity|].
  destruct (Z.ltb_spec (Args.rest_seconds args) 0) as [Hrest|Hrest];
    [eexists; reflexivity|].
  destruct (Z.ltb_spec (Args.warmup_seconds args) 0) as [Hw|Hw];
    [eexists; reflexivity|].
  lia.
Qed.

Lemma script_quiet (parser : ArgumentParser) (args : Args.t) :
  valid_args args ->
  script parser args quiet
  = (inr (SystemExit 0), mkWorld (session_events (config_of_args args)) None).
Proof.
  intros Hv. unfold script, main, bind.
  rewrite (parse_args_accepts parser args quiet Hv).
  unfold quiet. rewrite run_timer_quiet. reflexivity.
Qed.

Lemma script_interrupted (parser : ArgumentParser) (args : Args.t) (k : nat) :
  valid_args args ->
  (k < List.length (session_events (config_of_args args)))%nat ->
  script parser args (interrupted_after k)
  = (inr (SystemExit 0),
     mkWorld (firstn k (session_events (config_of_args args))
              ++ [Stdout_write stopped_notice]) None).
Proof.
  intros Hv Hk. unfold script, main, bind.
  rewrite (parse_args_accepts parser args (interrupted_after k) Hv).
  unfold interrupted_after. rewrite run_timer_interrupted by exact Hk.
  reflexivity.
Qed.

(** C4. Validation. A command line with [rounds < 1] or with a negative
    duration is rejected: the process prints the usage text and an error
    message on the error stream, nothing on standard output, and exits with
    status 2. A command line with [rounds >= 1] and no negative duration is
    accepted, with its values as the configuration and nothing printed by
    the validation. *)
Theorem argument_validation (parser : ArgumentParser) (args : Args.t) :
  (Args.rounds args < 1 \/ Args.round_seconds args < 0
   \/ Args.rest_seconds args < 0 \/ Args.warmup_seconds args < 0 ->
   exists message : string,
     script parser args quiet
     = (inr (SystemExit 2),
        mkWorld [Stderr_write (usage parser);
                 Stderr_write (prog parser ++ ": error: " ++ message
                               ++ String Py.LF "")] None))
  /\ (1 <= Args.rounds args /\ 0 <= Args.round_seconds args
      /\ 0 <= Args.rest_seconds args /\ 0 <= Args.warmup_seconds args ->
      parse_args parser args quiet
      = (inl (mkTimerConfig (Args.rounds args) (Args.round_seconds args)
                (Args.rest_seconds args) (Args.warmup_seconds args)
                (negb (Args.no_bell args))),
         quiet)).
Proof.
  split.
  - intros Hbad. destruct (parse_args_rejects parser args Hbad) as [message Hm].
    exists message. unfold script, main, bind. rewrite Hm. reflexivity.
  - intros Hv. exact (parse_args_accepts parser args quiet Hv).
Qed.

Lemma argument_validation_witness :
  (exists message : string,
     script (mkArgumentParser "boxing_timer.py" "usage") (Args.mk 0 180 60 10 false) quiet
     = (inr (SystemExit 2),
        mkWorld [Stderr_write "usage";
                 Stderr_write ("boxing_timer.py: error: " ++ message
                               ++ String Py.LF "")] None))
  /\ (exists message : string,
        script (mkArgumentParser "boxing_timer.py" "usage") (Args.mk 3 (-1) 60 10 false) quiet
        = (inr (SystemExit 2),
           mkWorld [Stderr_write "usage";
                    Stderr_write ("boxing_timer.py: error: " ++ message
                                  ++ String Py.LF "")] None))
  /\ parse_args (mkArgumentParser "boxing_timer.py" "usage") (Args.mk 1 0 0 0 false) quiet
     = (inl (mkTimerConfig 1 0 0 0 true), quiet).
Proof.
  split; [|split].
  - apply (proj1 (argument_validation
                    (mkArgumentParser "boxing_timer.py" "usage")
                    (Args.mk 0 180 60 10 false))).
    left. cbn. lia.
  - apply (proj1 (argument_validation
                    (mkArgumentParser "boxing_timer.py" "usage")
                    (Args.mk 3 (-1) 60 10 false))).
    right. left. cbn. lia.
  - apply (proj2 (argument_validation
                    (mkArgumentParser "boxing_timer.py" "usage")
                    (Args.mk 1 0 0 0 false))).
    cbn. lia.
Defined.

(** The messages of the two rejections of the specification, and the exit
    status of an accepted command line. *)
Example rounds_zero_rejected (parser : ArgumentParser) :
  script parser (Args.mk 0 180 60 10 false) quiet
  = (inr (SystemExit 2),
     mkWorld [Stderr_write (usage parser);
              Stderr_write (prog parser
                            ++ ": error: --rounds must be at least 1"
                            ++ String Py.LF "")] None).
Proof. reflexivity. Qed.

Example negative_round_seconds_rejected (parser : ArgumentParser) :
  script parser (Args.mk 3 (-1) 60 10 false) quiet
  = (inr (SystemExit 2),
     mkWorld [Stderr_write (usage parser);
              Stderr_write (prog parser
                            ++ ": error: --round-seconds cannot be negative"
                            ++ String Py.LF "")] None).
Proof. reflexivity. Qed.

(** C5. When Ctrl+C strikes while the driver is running, that is after [k]
    of the events of the session with [k] less than their number, the
    terminal shows those [k] events and nothing more of the session (no
    further tick, no further interval), then a newline and "Timer stopped.",
    and the process exits with status 0, as it does when nothing interrupts
    the session. *)
Theorem interrupt_stops_timer (parser : ArgumentParser) (args : Args.t) (k : nat) :
  valid_args args ->
  (k < List.length (trace_of (script parser args)))%nat ->
  script parser args (interrupted_after k)
  = (inr (SystemExit 0),
     mkWorld (firstn k (trace_of (script parser args))
              ++ [Stdout_write
                    (String Py.LF ("Timer stopped." ++ String Py.LF ""))])
       None)
  /\ result_of (script parser args) = inr (SystemExit 0).
Proof.
  intros Hv. unfold trace_of, result_of.
  rewrite (script_quiet parser args Hv). cbn [snd fst trace].
  intros Hk. split; [|reflexivity].
  exact (script_interrupted parser args k Hv Hk).
Qed.

Lemma interrupt_stops_timer_witness :
  valid_args (Args.mk 1 1 0 0 false)
  /\ (2 < List.length (trace_of (script (mkArgumentParser "boxing_timer.py" "usage")
                                   (Args.mk 1 1 0 0 false))))%nat
  /\ script (mkArgumentParser "boxing_timer.py" "usage") (Args.mk 1 1 0 0 false)
       (interrupted_after 2)
     = (inr (SystemExit 0),
        mkWorld [Stdout_write (String Py.CR "Round 1/1: 00:01   ");
                 Stdout_flush;
                 Stdout_write (String Py.LF ("Timer stopped." ++ String Py.LF ""))]
          None).
Proof.
  assert (valid_args (Args.mk 1 1 0 0 false)) as Hv
    by (unfold valid_args; cbn; lia).
  assert (2 < List.length (trace_of (script (mkArgumentParser "boxing_timer.py" "usage")
                                       (Args.mk 1 1 0 0 false))))%nat as Hk
    by (vm_compute; lia).
  split; [exact Hv | split; [exact Hk|]].
  exact (proj1 (interrupt_stops_timer (mkArgumentParser "boxing_timer.py" "usage")
                  (Args.mk 1 1 0 0 false) 2 Hv Hk)).
Defined.

(** ** Time formatting *)

Lemma decimal_value_from_uint (u : Decimal.uint) (acc : Z) :
  decimal_value_from acc (NilEmpty.string_of_uint u) = Some (uint_value u acc).
Proof.
  revert acc. induction u as [|u IH|u IH|u IH|u IH|u IH|u IH|u IH|u IH|u IH|u IH];
    intros acc; cbn [NilEmpty.string_of_uint decimal_value_from uint_value];
    [reflexivity | ..];
    match goal with
    | |- context [digit_value ?ch] =>
        change (digit_value ch) with (Some (Z.of_nat (nat_of_ascii ch) - 48))
    end; cbv iota; rewrite IH; f_equal; f_equal; cbn; lia.
Qed.

Lemma of_uint_acc_value (u : Decimal.uint) (p : positive) :
  Zpos (Pos.of_uint_acc u p) = uint_value u (Zpos p).
Proof.
  revert p. induction u as [|u IH|u IH|u IH|u IH|u IH|u IH|u IH|u IH|u IH|u IH];
    intros p; cbn [Pos.of_uint_acc uint_value];
    [reflexivity | ..]; rewrite IH; f_equal; lia.
Qed.

Lemma of_uint_value (u : Decimal.uint) :
  Z.of_N (N.of_uint u) = uint_value u 0.
Proof.
  unfold N.of_uint.
  induction u as [|u IH|u IH|u IH|u IH|u IH|u IH|u IH|u IH|u IH|u IH];
    cbn [Pos.of_uint uint_value];
    [reflexivity | exact IH | ..];
    cbn [Z.of_N]; rewrite of_uint_acc_value; reflexivity.
Qed.

Lemma string_of_uint_nonempty (u : Decimal.uint) :
  u <> Decimal.Nil ->
  exists ch rest, NilEmpty.string_of_uint u = String ch rest.
Proof. destruct u; intros H; try congruence; cbn; eauto. Qed.

Lemma decimal_value_digits (n : Z) :
  0 <= n -> decimal_value (Py.digits n) = Some n.
Proof.
  intros Hn. unfold Py.digits, NilZero.string_of_uint.
  pose proof (DecimalN.Unsigned.of_to (Z.abs_N n)) as Hof.
  apply (f_equal Z.of_N) in Hof. rewrite of_uint_value in Hof.
  rewrite N2Z.inj_abs_N, Z.abs_eq in Hof by assumption.
  destruct (N.to_uint (Z.abs_N n)) eqn:Eu;
    try (match goal with
         | |- decimal_value (NilEmpty.string_of_uint ?u) = _ =>
             change (decimal_value (NilEmpty.string_of_uint u))
               with (decimal_value_from 0 (NilEmpty.string_of_uint u));
             rewrite decimal_value_from_uint, Hof; reflexivity
         end).
  cbn in Hof. subst n. reflexivity.
Qed.

Lemma digits_length_large (n : Z) :
  10 <= n -> (2 <= String.length (Py.digits n))%nat.
Proof.
  intros Hn. unfold Py.digits, NilZero.string_of_uint.
  pose proof (DecimalN.Unsigned.of_to (Z.abs_N n)) as Hof.
  apply (f_equal Z.of_N) in Hof.
  rewrite N2Z.inj_abs_N, Z.abs_eq in Hof by lia.
  destruct (N.to_uint (Z.abs_N n)) as [|u|u|u|u|u|u|u|u|u|u];
    try (cbn in Hof; lia);
    destruct u; try (cbn in Hof; lia);
    cbn [NilEmpty.string_of_uint String.length]; lia.
Qed.

Lemma format_0d_large (n : Z) :
  10 <= n -> Py.format_0d 2 n = Py.digits n.
Proof.
  intros Hn. unfold Py.format_0d, Py.sign.
  replace (n <? 0) with false by (symmetry; apply Z.ltb_ge; lia).
  pose proof (digits_length_large n Hn) as Hl.
  replace (2 - String.length "" - String.length (Py.digits n))%nat with O
    by (cbn [String.length]; lia).
  reflexivity.
Qed.

Lemma two_digits_below_hundred :
  forallb two_digits_ok (map Z.of_nat (seq 0 100)) = true.
Proof. vm_compute. reflexivity. Qed.

Lemma two_digits_small (n : Z) :
  0 <= n < 100 ->
  String.length (Py.format_0d 2 n) = 2%nat
  /\ decimal_value (Py.format_0d 2 n) = Some n.
Proof.
  intros Hn.
  pose proof two_digits_below_hundred as Hall.
  rewrite forallb_forall in Hall.
  assert (two_digits_ok n = true) as Hok.
  { apply Hall. apply in_map_iff. exists (Z.to_nat n). split; [lia|].
    apply in_seq. lia. }
  unfold two_digits_ok in Hok. apply andb_true_iff in Hok as [Hlen Hval].
  apply Nat.eqb_eq in Hlen. split; [exact Hlen|].
  destruct (decimal_value (Py.format_0d 2 n)) as [v|]; [|discriminate].
  apply Z.eqb_eq in Hval. congruence.
Qed.

Lemma format_0d_value (n : Z) :
  0 <= n ->
  decimal_value (Py.format_0d 2 n) = Some n
  /\ (2 <= String.length (Py.format_0d 2 n))%nat.
Proof.
  intros Hn. destruct (Z.lt_ge_cases n 100) as [Hs|Hl].
  - destruct (two_digits_small n (conj Hn Hs)) as [Hlen Hval].
    split; [exact Hval | lia].
  - rewrite format_0d_large by lia. split.
    + apply decimal_value_digits, Hn.
    + apply digits_length_large. lia.
Qed.

(** C6. For every [s >= 0] the formatter renders [s] as the minutes
    [s div 60], a colon, and the seconds [s mod 60], each field in decimal
    and padded with zeros to two digits: the seconds field always has two
    characters, the minutes field at least two and exactly two below one
    hundred minutes. In particular 0, 59, 60 and 125 render as "00:00",
    "00:59", "01:00" and "02:05". *)
Theorem format_time_fields (s : Z) :
  0 <= s ->
  _format_time s
  = Py.format_0d 2 (s / 60) ++ ":" ++ Py.format_0d 2 (s mod 60)
  /\ decimal_value (Py.format_0d 2 (s / 60)) = Some (s / 60)
  /\ decimal_value (Py.format_0d 2 (s mod 60)) = Some (s mod 60)
  /\ String.length (Py.format_0d 2 (s mod 60)) = 2%nat
  /\ (2 <= String.length (Py.format_0d 2 (s / 60)))%nat
  /\ (s < 6000 -> String.length (Py.format_0d 2 (s / 60)) = 2%nat)
  /\ _format_time 0 = "00:00"
  /\ _format_time 59 = "00:59"
  /\ _format_time 60 = "01:00"
  /\ _format_time 125 = "02:05".
Proof.
  intros Hs.
  assert (0 <= s / 60) as Hm by (apply Z.div_pos; lia).
  assert (0 <= s mod 60 < 60) as Hsec by (apply Z.mod_pos_bound; lia).
  destruct (format_0d_value (s / 60) Hm) as [Hmv Hml].
  destruct (two_digits_small (s mod 60)) as [Hsl Hsv]; [lia|].
  repeat split; try assumption; try reflexivity.
  intros Hlt. apply two_digits_small. split; [exact Hm|].
  apply Z.div_lt_upper_bound; lia.
Qed.

Lemma format_time_fields_witness :
  0 <= 187
  /\ _format_time 187 = "03:07"
  /\ decimal_value "03" = Some 3
  /\ decimal_value "07" = Some 7.
Proof.
  assert (0 <= 187) as H by lia.
  split; [exact H|].
  destruct (format_time_fields 187 H) as (Hf & Hm & Hs & _).
  split; [exact Hf | split; [exact Hm | exact Hs]].
Defined.

(** ** The completion signal *)

Lemma bells_app (a b : string) : bells (a ++ b) = (bells a + bells b)%nat.
Proof.
  induction a as [|ch a IH]; cbn [append bells].
  - reflexivity.
  - rewrite IH. lia.
Qed.

Lemma bells_uint (u : Decimal.uint) : bells (NilEmpty.string_of_uint u) = O.
Proof.
  induction u; cbn [NilEmpty.string_of_uint bells]; try rewrite IHu; reflexivity.
Qed.

Lemma bells_digits (n : Z) : bells (Py.digits n) = O.
Proof.
  unfold Py.digits, NilZero.string_of_uint.
  destruct (N.to_uint (Z.abs_N n)) eqn:E; try reflexivity; apply bells_uint.
Qed.

Lemma bells_sign (n : Z) : bells (Py.sign n) = O.
Proof. unfold Py.sign. destruct (n <? 0); reflexivity. Qed.

Lemma bells_zeros (k : nat) : bells (Py.zeros k) = O.
Proof. induction k as [|k IH]; cbn [Py.zeros bells]; [|rewrite IH]; reflexivity. Qed.

Lemma bells_str (n : Z) : bells (Py.str n) = O.
Proof. unfold Py.str. rewrite bells_app, bells_sign, bells_digits. reflexivity. Qed.

Lemma bells_format_0d (width : nat) (n : Z) : bells (Py.format_0d width n) = O.
Proof.
  unfold Py.format_0d.
  rewrite !bells_app, bells_sign, bells_zeros, bells_digits. reflexivity.
Qed.

Lemma bells_format_time (s : Z) : bells (_format_time s) = O.
Proof.
  unfold _format_time, Py.divmod.
  rewrite !bells_app, !bells_format_0d. reflexivity.
Qed.

Lemma bells_round_label (c : TimerConfig) (i : Z) : bells (round_label c i) = O.
Proof. unfold round_label. rewrite !bells_app, !bells_str. reflexivity. Qed.

Lemma bells_status_line (label : string) (r : Z) :
  bells (status_line label r) = bells label.
Proof.
  unfold status_line. cbn [bells].
  rewrite !bells_app, bells_format_time. cbn. lia.
Qed.

Lemma bells_stdout_app (t1 t2 : list event) :
  bells (stdout_text (t1 ++ t2))
  = (bells (stdout_text t1) + bells (stdout_text t2))%nat.
Proof.
  induction t1 as [|e t1 IH]; cbn [List.app stdout_text].
  - reflexivity.
  - destruct e; try exact IH. rewrite !bells_app, IH. lia.
Qed.

Lemma bells_ticks (label : string) (rs : list Z) :
  bells label = O ->
  bells (stdout_text (flat_map (tick_events label) rs)) = O.
Proof.
  intros Hl. induction rs as [|r rs IH]; cbn [flat_map].
  - reflexivity.
  - rewrite bells_stdout_app, IH.
    unfold tick_events. destruct (0 <? r); cbn [List.app stdout_text];
      rewrite bells_app, bells_status_line, Hl; reflexivity.
Qed.

Lemma bells_countdown (label : string) (seconds : Z) (b : bool) :
  bells label = O ->
  bells (stdout_text (countdown_events label seconds b))
  = if b then 1%nat else O.
Proof.
  intros Hl. unfold countdown_events.
  rewrite bells_stdout_app, bells_ticks by exact Hl.
  destruct b; reflexivity.
Qed.

Lemma labels_without_bell (c : TimerConfig) :
  Forall (fun iv : interval => bells (fst iv) = O) (_round_intervals c).
Proof.
  unfold _round_intervals. apply Forall_app. split.
  - destruct (Py.truthy (warmup_seconds c)); repeat constructor.
  - generalize (Py.range 1 (rounds c + 1) 1). intros rs.
    induction rs as [|r rs IH]; cbn [flat_map].
    + constructor.
    + apply Forall_app. split; [|exact IH].
      unfold round_body. constructor.
      * apply bells_round_label.
      * destruct (negb (r =? rounds c) && Py.truthy (rest_seconds c));
          repeat constructor.
Qed.

Lemma bells_intervals (b : bool) (l : list interval) :
  Forall (fun iv : interval => bells (fst iv) = O) l ->
  bells (stdout_text
           (flat_map (fun iv : interval => countdown_events (fst iv) (snd iv) b) l))
  = if b then List.length l else O.
Proof.
  induction 1 as [|iv l Hiv Hl IH]; cbn [flat_map List.length].
  - destruct b; reflexivity.
  - rewrite bells_stdout_app, IH, bells_countdown by exact Hiv.
    destruct b; reflexivity.
Qed.

Lemma spec_countdown_last (label : string) (d : nat) :
  exists ticks : list event,
    spec_countdown label d
    = (ticks ++ [Stdout_write (status_line label 0); Stdout_flush])%list.
Proof.
  induction d as [|d [ticks IH]].
  - exists []. reflexivity.
  - eexists. cbn [spec_countdown]. rewrite IH, app_assoc. reflexivity.
Qed.

(** C8. At the end of every countdown, after the update that shows zero, the
    renderer writes a newline and then the bell character, flushed, exactly
    when the signal is enabled: a countdown rings once when enabled and never
    otherwise. The session is the countdowns of its intervals, all run with
    the signal off when [--no-bell] was given, so that no bell character is
    written at all, and with one bell per interval otherwise. *)
Theorem completion_signal (parser : ArgumentParser) (args : Args.t)
    (label : string) (D : Z) (enabled : bool) :
  valid_args args ->
  0 <= D ->
  bells label = O ->
  (exists ticks : list event,
     trace_of (_countdown label D enabled)
     = (ticks
        ++ [Stdout_write (status_line label 0); Stdout_flush;
            Stdout_write (String Py.LF "")]
        ++ (if enabled
            then [Stdout_write (String Py.BEL ""); Stdout_flush]
            else []))%list)
  /\ bells (stdout_text (trace_of (_countdown label D enabled)))
     = (if enabled then 1%nat else O)
  /\ trace_of (script parser args)
     = flat_map
         (fun iv : interval =>
            trace_of (_countdown (fst iv) (snd iv) (negb (Args.no_bell args))))
         (_round_intervals (config_of_args args))
  /\ bells (stdout_text (trace_of (script parser args)))
     = (if Args.no_bell args
        then O
        else List.length (_round_intervals (config_of_args args))).
Proof.
  intros Hv HD Hl.
  rewrite (behaves_trace_of _ _ _ (countdown_behaves label D enabled)).
  assert (trace_of (script parser args) = session_events (config_of_args args))
    as Hs.
  { unfold trace_of. rewrite (script_quiet parser args Hv). reflexivity. }
  rewrite Hs. repeat split.
  - rewrite countdown_events_spec by exact HD.
    destruct (spec_countdown_last label (Z.to_nat D)) as [ticks Ht].
    exists ticks. rewrite Ht, <- app_assoc. reflexivity.
  - apply bells_countdown, Hl.
  - unfold session_events. apply flat_map_ext. intros iv.
    symmetry. apply (behaves_trace_of _ _ _ (countdown_behaves _ _ _)).
  - unfold session_events. rewrite bells_intervals by apply labels_without_bell.
    cbn [bell config_of_args]. destruct (Args.no_bell args); reflexivity.
Qed.

Lemma completion_signal_witness :
  valid_args (Args.mk 2 1 1 0 true)
  /\ 0 <= 1
  /\ bells "Rest" = O
  /\ trace_of (_countdown "Rest" 1 true)
     = [Stdout_write (String Py.CR "Rest: 00:01   "); Stdout_flush; Sleep 1;
        Stdout_write (String Py.CR "Rest: 00:00   "); Stdout_flush;
        Stdout_write (String Py.LF "");
        Stdout_write (String Py.BEL ""); Stdout_flush]
  /\ bells (stdout_text (trace_of (script (mkArgumentParser "boxing_timer.py" "usage")
                                     (Args.mk 2 1 1 0 true)))) = O.
Proof.
  assert (valid_args (Args.mk 2 1 1 0 true)) as Hv
    by (unfold valid_args; cbn; lia).
  assert (0 <= 1) as HD by lia.
  assert (bells "Rest" = O) as Hl by reflexivity.
  split; [exact Hv | split; [exact HD | split; [exact Hl | split]]].
  - reflexivity.
  - exact (proj2 (proj2 (proj2
             (completion_signal (mkArgumentParser "boxing_timer.py" "usage")
                (Args.mk 2 1 1 0 true) "Rest" 1 true Hv HD Hl)))).
Defined.

(** ** The generator object yields the list and leaves the heap alone *)

Module GeneratorFacts.

Import Generator.

Ltac run_heap_code :=
  unfold next, enter_loop, rest_wanted, loop_head, and_then, read, pure;
  cbn [config_ref at_point fst snd].

(** The generator writes nothing: resuming it leaves every object of the
    heap as it was. *)
Lemma next_heap (f : frame) (h : heap) : snd (next f h) = h.
Proof.
  destruct f as [config [| |round_number pending|pending|]]; run_heap_code.
  - destruct (Py.truthy (warmup_seconds (h config))); [reflexivity|].
    destruct (Py.range 1 (rounds (h config) + 1) 1); reflexivity.
  - destruct (Py.range 1 (rounds (h config) + 1) 1); reflexivity.
  - destruct (negb (round_number =? rounds (h config))); cbn [fst snd].
    + destruct (Py.truthy (rest_seconds (h config))); [reflexivity|].
      destruct pending; reflexivity.
    + destruct pending; reflexivity.
  - destruct pending; reflexivity.
  - reflexivity.
Qed.

Lemma loop_head_remaining (config : ref) (pending : list Z) (h : heap) :
  match fst (loop_head config pending h) with
  | (Some x, f') =>
      flat_map (round_body (h config)) pending = x :: remaining h f'
      /\ config_ref f' = config
  | (None, f') =>
      flat_map (round_body (h config)) pending = []
      /\ at_point f' = Finished /\ config_ref f' = config
  end.
Proof.
  destruct pending as [|round_number pending]; run_heap_code.
  - repeat split.
  - split; reflexivity.
Qed.

(** One call to [next] takes the head of what remained, and the generator
    keeps the reference it was created with. *)
Lemma next_remaining (f : frame) (h : heap) :
  match fst (next f h) with
  | (Some x, f') =>
      remaining h f = x :: remaining h f' /\ config_ref f' = config_ref f
  | (None, f') =>
      remaining h f = []
      /\ at_point f' = Finished /\ config_ref f' = config_ref f
  end.
Proof.
  destruct f as [config [| |round_number pending|pending|]].
  - unfold next, enter_loop, and_then, read, pure.
    cbn [config_ref at_point fst snd remaining].
    unfold _round_intervals.
    destruct (Py.truthy (warmup_seconds (h config))).
    + split; reflexivity.
    + apply (loop_head_remaining config _ h).
  - unfold next, enter_loop, and_then, read, pure.
    cbn [config_ref at_point fst snd remaining].
    apply (loop_head_remaining config _ h).
  - unfold next, rest_wanted, and_then, read, pure.
    cbn [config_ref at_point fst snd remaining].
    change (tl (round_body (h config) round_number))
      with (if negb (round_number =? rounds (h config))
               && Py.truthy (rest_seconds (h config))
            then [("Rest", rest_seconds (h config))] else []).
    destruct (negb (round_number =? rounds (h config))); cbn [andb fst snd].
    + destruct (Py.truthy (rest_seconds (h config))).
      * split; reflexivity.
      * apply (loop_head_remaining config pending h).
    + apply (loop_head_remaining config pending h).
  - unfold next. cbn [config_ref at_point remaining].
    apply (loop_head_remaining config pending h).
  - repeat split.
Qed.

Lemma to_list_remaining (fuel : nat) (f : frame) (h : heap) :
  (List.length (remaining h f) < fuel)%nat ->
  to_list fuel f h = Some (remaining h f, h).
Proof.
  revert f. induction fuel as [|fuel IH]; intros f Hfuel; [lia|].
  cbn [to_list].
  pose proof (next_remaining f h) as Hn. pose proof (next_heap f h) as Hh.
  destruct (next f h) as [[[x|] f'] h']; cbn [fst snd] in Hn, Hh; subst h'.
  - destruct Hn as [Hn _]. rewrite Hn in *. cbn [List.length] in Hfuel.
    rewrite IH by lia. reflexivity.
  - destruct Hn as [-> _]. reflexivity.
Qed.

Lemma pull_heap (a : consumer) (h : heap) : snd (pull a h) = h.
Proof.
  unfold pull, and_then. pose proof (next_heap (gen a) h) as Hh.
  destruct (next (gen a) h) as [[[x|] f'] h']; exact Hh.
Qed.

Lemma pull_in_step (a : consumer) (h : heap) :
  in_step h a ->
  in_step h (fst (pull a h))
  /\ config_ref (gen (fst (pull a h))) = config_ref (gen a).
Proof.
  unfold in_step, pull, and_then. intros H.
  pose proof (next_remaining (gen a) h) as Hn.
  destruct (next (gen a) h) as [[[x|] f'] h']; cbn [fst snd pure gen seen] in *.
  - destruct Hn as [Hn Hc]. rewrite Hn in H. rewrite Hc, <- app_assoc.
    split; [exact H | reflexivity].
  - destruct Hn as (Hnil & Hfin & Hc). rewrite Hc.
    split; [|reflexivity].
    rewrite Hnil in H. unfold remaining. rewrite Hfin. exact H.
Qed.

Lemma interleave_heap (schedule : list bool) (a b : consumer) (h : heap) :
  snd (interleave schedule a b h) = h.
Proof.
  revert a b. induction schedule as [|[|] schedule IH]; intros a b;
    cbn [interleave]; [reflexivity | |]; unfold and_then.
  - pose proof (pull_heap a h) as Hh.
    destruct (pull a h) as [a' h']. cbn [snd] in Hh. subst h'. apply IH.
  - pose proof (pull_heap b h) as Hh.
    destruct (pull b h) as [b' h']. cbn [snd] in Hh. subst h'. apply IH.
Qed.

Lemma interleave_in_step (schedule : list bool) (a b : consumer) (h : heap) :
  in_step h a -> in_step h b ->
  in_step h (fst (fst (interleave schedule a b h)))
  /\ in_step h (snd (fst (interleave schedule a b h)))
  /\ config_ref (gen (fst (fst (interleave schedule a b h)))) = config_ref (gen a)
  /\ config_ref (gen (snd (fst (interleave schedule a b h)))) = config_ref (gen b).
Proof.
  revert a b. induction schedule as [|[|] schedule IH]; intros a b Ha Hb;
    cbn [interleave]; [repeat split; assumption | |]; unfold and_then.
  - pose proof (pull_heap a h) as Hh.
    destruct (pull_in_step a h Ha) as [Ha' Hc].
    destruct (pull a h) as [a' h']. cbn [fst snd] in *. subst h'.
    rewrite <- Hc. apply IH; assumption.
  - pose proof (pull_heap b h) as Hh.
    destruct (pull_in_step b h Hb) as [Hb' Hc].
    destruct (pull b h) as [b' h']. cbn [fst snd] in *. subst h'.
    rewrite <- Hc. apply IH; assumption.
Qed.

Lemma in_step_finished (h : heap) (a : consumer) :
  in_step h a -> at_point (gen a) = Finished ->
  seen a = _round_intervals (h (config_ref (gen a))).
Proof.
  unfold in_step, remaining. intros H E. rewrite E, app_nil_r in H. exact H.
Qed.

Lemma in_step_prefix (h : heap) (a : consumer) :
  in_step h a ->
  seen a = firstn (List.length (seen a))
             (_round_intervals (h (config_ref (gen a)))).
Proof.
  unfold in_step. intros H. rewrite <- H.
  rewrite firstn_app, Nat.sub_diag, firstn_all. cbn [firstn].
  rewrite app_nil_r. reflexivity.
Qed.

(** The sequence depends on the four settings only. *)
Lemma same_settings_same_intervals (c1 c2 : TimerConfig) :
  same_settings c1 c2 -> _round_intervals c1 = _round_intervals c2.
Proof.
  destruct c1, c2. unfold same_settings. cbn.
  intros (-> & -> & -> & ->). reflexivity.
Qed.

End GeneratorFacts.

(** C9. Invoking the producer twice on the same configuration yields
    identical sequences, and the producer has no side effect. The
    configuration is an object in the heap that the generator reads while it
    runs; "the same configuration" is one object, or two with the same four
    settings. Consuming the first generator leaves the heap exactly as it
    was, so that a second one made afterwards yields the very same list,
    [_round_intervals] of the object. And two generator objects advanced in
    any interleaving on the one heap change nothing in it, so neither can
    influence the other: each has seen a prefix of that same list, the whole
    of it once exhausted. Validity of the configuration is not needed. *)
Theorem producer_deterministic (h : Generator.heap)
    (first second : Generator.ref) (schedule : list bool) :
  Generator.same_settings (h first) (h second) ->
  Generator.list_twice (S (List.length (_round_intervals (h first)))) first second h
  = Some (_round_intervals (h first), _round_intervals (h first), h)
  /\ snd (Generator.interleave schedule (Generator.fresh first)
            (Generator.fresh second) h) = h
  /\ (let a := fst (fst (Generator.interleave schedule (Generator.fresh first)
                           (Generator.fresh second) h)) in
      let b := snd (fst (Generator.interleave schedule (Generator.fresh first)
                           (Generator.fresh second) h)) in
      Generator.seen a
      = firstn (List.length (Generator.seen a)) (_round_intervals (h first))
      /\ Generator.seen b
         = firstn (List.length (Generator.seen b)) (_round_intervals (h first))
      /\ (Generator.at_point (Generator.gen a) = Generator.Finished ->
          Generator.seen a = _round_intervals (h first))
      /\ (Generator.at_point (Generator.gen b) = Generator.Finished ->
          Generator.seen b = _round_intervals (h first))
      /\ (Generator.at_point (Generator.gen a) = Generator.Finished ->
          Generator.at_point (Generator.gen b) = Generator.Finished ->
          Generator.seen a = Generator.seen b)).
Proof.
  intros Hsame.
  pose proof (GeneratorFacts.same_settings_same_intervals _ _ Hsame) as HL.
  split; [|split].
  - unfold Generator.list_twice.
    rewrite (GeneratorFacts.to_list_remaining _ (Generator.create first) h)
      by (cbn; lia).
    rewrite (GeneratorFacts.to_list_remaining _ (Generator.create second) h)
      by (cbn; rewrite <- HL; lia).
    cbn. rewrite <- HL. reflexivity.
  - apply GeneratorFacts.interleave_heap.
  - cbv zeta.
    destruct (GeneratorFacts.interleave_in_step schedule
                (Generator.fresh first) (Generator.fresh second) h
                eq_refl eq_refl) as (Ha & Hb & Hca & Hcb).
    cbn [Generator.fresh Generator.gen Generator.create Generator.config_ref]
      in Hca, Hcb.
    pose proof (GeneratorFacts.in_step_prefix h _ Ha) as Pa.
    pose proof (GeneratorFacts.in_step_prefix h _ Hb) as Pb.
    pose proof (GeneratorFacts.in_step_finished h _ Ha) as Fa.
    pose proof (GeneratorFacts.in_step_finished h _ Hb) as Fb.
    rewrite Hca in Pa, Fa. rewrite Hcb, <- HL in Pb, Fb.
    repeat split; try assumption.
    intros Ea Eb. rewrite (Fa Ea), (Fb Eb). reflexivity.
Qed.

Lemma producer_deterministic_witness :
  Generator.same_settings (mkTimerConfig 2 5 3 2 true) (mkTimerConfig 2 5 3 2 false)
  /\ Generator.list_twice 5 0%nat 1%nat
       (fun r => if Nat.eqb r 0
                 then mkTimerConfig 2 5 3 2 true
                 else mkTimerConfig 2 5 3 2 false)
     = Some ([("Warmup", 2); ("Round 1/2", 5); ("Rest", 3); ("Round 2/2", 5)],
             [("Warmup", 2); ("Round 1/2", 5); ("Rest", 3); ("Round 2/2", 5)],
             fun r => if Nat.eqb r 0
                      then mkTimerConfig 2 5 3 2 true
                      else mkTimerConfig 2 5 3 2 false).
Proof.
  assert (Generator.same_settings (mkTimerConfig 2 5 3 2 true)
            (mkTimerConfig 2 5 3 2 false)) as Hs
    by (unfold Generator.same_settings; cbn; repeat split).
  split; [exact Hs|].
  exact (proj1 (producer_deterministic
                  (fun r => if Nat.eqb r 0
                            then mkTimerConfig 2 5 3 2 true
                            else mkTimerConfig 2 5 3 2 false)
                  0%nat 1%nat [] Hs)).
Defined.

(** The hypothesis is needed, and the heap is really read as the generator
    runs: when a holder of the reference assigns [config.rounds = 1] after
    the first round of a two-round session has been drawn, the generator goes
    on with the round numbers of the range it built at loop entry, labels
    them with the new count, takes no rest after round 1 and one after
    round 2. *)
Example mutation_is_observed :
  let h : Generator.heap := fun _ => mkTimerConfig 2 5 3 0 true in
  fst (Generator.and_then (Generator.pull (Generator.fresh 0%nat)) (fun a =>
       Generator.and_then (Generator.assign_rounds 0%nat 1) (fun _ =>
       Generator.and_then (Generator.pull a) (fun a' =>
       Generator.and_then (Generator.pull a') (fun a'' =>
       Generator.pure (Generator.seen a''))))) h)
  = [("Round 1/2", 5); ("Round 2/1", 5); ("Rest", 3)]
  /\ _round_intervals (h 0%nat)
     = [("Round 1/2", 5); ("Rest", 3); ("Round 2/2", 5)].
Proof. split; reflexivity. Qed.

Example format_time_beyond_two_digits : _format_time 6000 = "100:00".
Proof. reflexivity. Qed.

(** * Further properties *)

(** ** Displayed times can be read back *)

Lemma digit_is_not_colon (ch : ascii) (d : Z) :
  digit_value ch = Some d -> Ascii.eqb ch ":" = false.
Proof.
  intros H. destruct (Ascii.eqb_spec ch ":") as [->|]; [|reflexivity].
  discriminate H.
Qed.

Lemma split_at_colon_digits (a b : string) (acc v : Z) :
  decimal_value_from acc a = Some v ->
  split_at ":" (a ++ String ":" b) = Some (a, b).
Proof.
  revert acc. induction a as [|ch a IH]; intros acc H.
  - reflexivity.
  - cbn [append split_at]. cbn [decimal_value_from] in H.
    destruct (digit_value ch) as [d|] eqn:Ed; [|discriminate].
    rewrite (digit_is_not_colon ch d Ed), (IH _ H). reflexivity.
Qed.

Lemma decimal_value_from_zero (s : string) (v : Z) :
  decimal_value s = Some v -> decimal_value_from 0 s = Some v.
Proof. destruct s; [discriminate | exact (fun H => H)]. Qed.

Lemma parse_format_time (s : Z) :
  0 <= s -> parse_time (_format_time s) = Some s.
Proof.
  intros Hs.
  assert (0 <= s / 60) as Hm by (apply Z.div_pos; lia).
  assert (0 <= s mod 60 < 60) as Hsec by (apply Z.mod_pos_bound; lia).
  destruct (format_0d_value (s / 60) Hm) as [Hmv _].
  destruct (format_0d_value (s mod 60)) as [Hsv _]; [lia|].
  unfold parse_time, _format_time, Py.divmod.
  change (":" ++ Py.format_0d 2 (s mod 60))
    with (String ":" (Py.format_0d 2 (s mod 60))).
  rewrite (split_at_colon_digits _ _ 0 (s / 60))
    by (apply decimal_value_from_zero, Hmv).
  rewrite Hmv, Hsv. f_equal. symmetry. apply Z.div_mod. lia.
Qed.

(** X1. What the formatter displays for a non-negative number of seconds
    reads back as that number: splitting at the colon and taking sixty times
    the minutes plus the seconds recovers it. *)
Theorem format_time_round_trip (s : Z) :
  0 <= s -> parse_time (_format_time s) = Some s.
Proof. exact (parse_format_time s). Qed.

Lemma format_time_round_trip_witness :
  0 <= 3725 /\ parse_time "62:05" = Some 3725.
Proof.
  assert (0 <= 3725) as H by lia.
  split; [exact H | exact (format_time_round_trip 3725 H)].
Defined.

(** X2. Two different non-negative times are never displayed alike. *)
Theorem format_time_injective (a b : Z) :
  0 <= a -> 0 <= b -> _format_time a = _format_time b -> a = b.
Proof.
  intros Ha Hb E.
  pose proof (parse_format_time a Ha) as Pa.
  pose proof (parse_format_time b Hb) as Pb.
  rewrite E in Pa. congruence.
Qed.

Lemma format_time_injective_witness :
  0 <= 61 /\ 0 <= 60 + 1 /\ _format_time 61 = _format_time (60 + 1) /\ 61 = 60 + 1.
Proof.
  assert (0 <= 61) as Ha by lia.
  assert (0 <= 60 + 1) as Hb by lia.
  assert (_format_time 61 = _format_time (60 + 1)) as E by reflexivity.
  split; [exact Ha | split; [exact Hb | split; [exact E|]]].
  exact (format_time_injective 61 (60 + 1) Ha Hb E).
Defined.

(** X3. The formatter does not guard against negative input: with floor
    division, a time in the last minute before zero is displayed as minute
    [-1] followed by the two digits of the seconds counted from that minute,
    so that -1 reads "-1:59". *)
Theorem format_time_negative (s : Z) :
  -60 <= s < 0 ->
  _format_time s = "-1:" ++ Py.format_0d 2 (s + 60)
  /\ String.length (Py.format_0d 2 (s + 60)) = 2%nat
  /\ decimal_value (Py.format_0d 2 (s + 60)) = Some (s + 60).
Proof.
  intros Hs.
  assert (s / 60 = -1) as Hq by (symmetry; apply (Z.div_unique s 60 (-1) (s + 60)); lia).
  assert (s mod 60 = s + 60) as Hr by (symmetry; apply (Z.mod_unique s 60 (-1) (s + 60)); lia).
  unfold _format_time, Py.divmod. rewrite Hq, Hr.
  split; [reflexivity|]. apply two_digits_small. lia.
Qed.

Lemma format_time_negative_witness :
  -60 <= -1 < 0 /\ _format_time (-1) = "-1:59".
Proof.
  assert (-60 <= -1 < 0) as H by lia.
  split; [exact H | exact (proj1 (format_time_negative (-1) H))].
Defined.

(** ** The status line keeps its width *)

Lemma length_append (a b : string) :
  String.length (a ++ b) = (String.length a + String.length b)%nat.
Proof.
  induction a as [|ch a IH]; cbn [append String.length]; [reflexivity|].
  rewrite IH. reflexivity.
Qed.

(** X4. Below one hundred minutes the displayed time has exactly five
    characters and so every status line of a countdown has the same width,
    the length of the label plus eleven: each update overwrites the previous
    one completely. *)
Theorem status_line_width (label : string) (remaining : Z) :
  0 <= remaining < 6000 ->
  String.length (_format_time remaining) = 5%nat
  /\ String.length (status_line label remaining)
     = (String.length label + 11)%nat.
Proof.
  intros Hr.
  assert (String.length (_format_time remaining) = 5%nat) as H5.
  { unfold _format_time, Py.divmod. rewrite !length_append.
    destruct (two_digits_small (remaining / 60)) as [-> _].
    { split; [apply Z.div_pos; lia | apply Z.div_lt_upper_bound; lia]. }
    destruct (two_digits_small (remaining mod 60)) as [-> _].
    { pose proof (Z.mod_pos_bound remaining 60). lia. }
    reflexivity. }
  split; [exact H5|].
  unfold status_line. cbn [String.length].
  rewrite !length_append, H5. cbn [String.length]. lia.
Qed.

Lemma status_line_width_witness :
  0 <= 187 < 6000
  /\ String.length (status_line "Round 1/3" 187) = 20%nat.
Proof.
  assert (0 <= 187 < 6000) as H by lia.
  split; [exact H | exact (proj2 (status_line_width "Round 1/3" 187 H))].
Defined.

(** ** The countdown outside its intended domain *)

(** X5. A countdown from a negative number of seconds shows no status line
    and never sleeps: it returns after writing the newline, and the bell when
    enabled. *)
Theorem countdown_negative (label : string) (seconds : Z) (enabled : bool) :
  seconds < 0 ->
  result_of (_countdown label seconds enabled) = inl tt
  /\ trace_of (_countdown label seconds enabled)
     = Stdout_write (String Py.LF "")
       :: (if enabled
           then [Stdout_write (String Py.BEL ""); Stdout_flush]
           else []).
Proof.
  intros Hs.
  pose proof (countdown_behaves label seconds enabled) as Hb.
  split.
  - unfold result_of. rewrite (behaves_quiet _ _ _ Hb). reflexivity.
  - rewrite (behaves_trace_of _ _ _ Hb). unfold countdown_events.
    rewrite range_down_nil by lia. reflexivity.
Qed.

Lemma countdown_negative_witness :
  -5 < 0
  /\ trace_of (_countdown "Warmup" (-5) false) = [Stdout_write (String Py.LF "")].
Proof.
  assert (-5 < 0) as H by lia.
  split; [exact H | exact (proj2 (countdown_negative "Warmup" (-5) false H))].
Defined.

(** ** The shape of the interval sequence *)

Lemma range_up_In (start stop i : Z) :
  In i (Py.range start stop 1) <-> start <= i < stop.
Proof.
  unfold Py.range. rewrite range_len_up, in_map_iff. split.
  - intros (k & <- & Hk). apply in_seq in Hk. lia.
  - intros Hi. exists (Z.to_nat (i - start)). split; [lia|].
    apply in_seq. lia.
Qed.

Lemma range_up_snoc (k : nat) (start : Z) :
  Py.range start (start + Z.of_nat k + 1) 1
  = (Py.range start (start + Z.of_nat k) 1 ++ [start + Z.of_nat k])%list.
Proof.
  revert start. induction k as [|k IH]; intros start.
  - rewrite range_up_cons by lia.
    rewrite (range_up_nil (start + 1)) by lia.
    rewrite (range_up_nil start) by lia.
    cbn [List.app]. f_equal. lia.
  - rewrite range_up_cons by lia.
    rewrite (range_up_cons start (start + Z.of_nat (S k))) by lia.
    replace (start + Z.of_nat (S k) + 1) with (start + 1 + Z.of_nat k + 1) by lia.
    replace (start + Z.of_nat (S k)) with (start + 1 + Z.of_nat k) by lia.
    rewrite IH. reflexivity.
Qed.

(** X6. Whenever there is at least one round, whatever the durations, the
    sequence ends with the last round, ["Round n/n"]: it never ends with a
    rest. *)
Theorem last_interval_is_last_round (c : TimerConfig) :
  1 <= rounds c ->
  exists before : list interval,
    _round_intervals c
    = (before
       ++ [(("Round " ++ Py.str (rounds c) ++ "/" ++ Py.str (rounds c))%string,
            round_seconds c)])%list.
Proof.
  intros Hr. unfold _round_intervals.
  replace (rounds c + 1) with (1 + Z.of_nat (Z.to_nat (rounds c - 1)) + 1) by lia.
  rewrite range_up_snoc, flat_map_app.
  replace (1 + Z.of_nat (Z.to_nat (rounds c - 1))) with (rounds c) by lia.
  cbn [flat_map]. unfold round_body at 2.
  rewrite Z.eqb_refl. cbn [negb andb]. rewrite app_nil_r.
  eexists. rewrite app_assoc. reflexivity.
Qed.

Lemma last_interval_is_last_round_witness :
  1 <= rounds (mkTimerConfig 2 5 3 2 true)
  /\ exists before : list interval,
       _round_intervals (mkTimerConfig 2 5 3 2 true)
       = (before ++ [("Round 2/2", 5)])%list.
Proof.
  assert (1 <= rounds (mkTimerConfig 2 5 3 2 true)) as H by (cbn; lia).
  split; [exact H | exact (last_interval_is_last_round (mkTimerConfig 2 5 3 2 true) H)].
Defined.

Lemma truthy_nonzero (n : Z) : Py.truthy n = true -> n <> 0.
Proof. unfold Py.truthy. destruct (Z.eqb_spec n 0); [discriminate | auto]. Qed.

(** X7. A warmup or a rest of zero seconds is never emitted, whatever the
    configuration: every interval of duration zero in the sequence is a
    round, with its index between 1 and [rounds]. *)
Theorem zero_duration_interval_is_round (c : TimerConfig) (iv : interval) :
  In iv (_round_intervals c) ->
  snd iv = 0 ->
  exists i : Z,
    1 <= i <= rounds c
    /\ iv = ("Round " ++ Py.str i ++ "/" ++ Py.str (rounds c), round_seconds c).
Proof.
  unfold _round_intervals. intros Hin Hzero.
  apply in_app_or in Hin. destruct Hin as [Hw|Hloop].
  - destruct (Py.truthy (warmup_seconds c)) eqn:Ew; [|contradiction].
    destruct Hw as [<-|[]]. apply truthy_nonzero in Ew. contradiction.
  - apply in_flat_map in Hloop. destruct Hloop as (i & Hi & Hbody).
    apply range_up_In in Hi. unfold round_body in Hbody.
    destruct Hbody as [<-|Hrest].
    + exists i. split; [lia | reflexivity].
    + destruct (negb (i =? rounds c) && Py.truthy (rest_seconds c)) eqn:E;
        [|contradiction].
      destruct Hrest as [<-|[]].
      apply andb_true_iff in E. destruct E as [_ E].
      apply truthy_nonzero in E. contradiction.
Qed.

Lemma zero_duration_interval_is_round_witness :
  In ("Round 2/2", 0) (_round_intervals (mkTimerConfig 2 0 0 0 true))
  /\ exists i : Z,
       1 <= i <= 2
       /\ ("Round 2/2", 0) = ("Round " ++ Py.str i ++ "/" ++ Py.str 2, 0).
Proof.
  assert (In ("Round 2/2", 0) (_round_intervals (mkTimerConfig 2 0 0 0 true)))
    as Hin by (right; left; reflexivity).
  split; [exact Hin|].
  exact (zero_duration_interval_is_round (mkTimerConfig 2 0 0 0 true)
           ("Round 2/2", 0) Hin eq_refl).
Defined.

(** X8. The sequence is empty exactly when there is no round to run and no
    warmup: a configuration built with [rounds <= 0], which the command line
    would have refused, makes the generator yield at most the warmup. *)
Theorem no_interval_iff_nothing_to_run (c : TimerConfig) :
  (_round_intervals c = [] <-> rounds c <= 0 /\ warmup_seconds c = 0)
  /\ (rounds c <= 0 ->
      _round_intervals c
      = if warmup_seconds c =? 0 then [] else [("Warmup", warmup_seconds c)]).
Proof.
  assert (rounds c <= 0 ->
          _round_intervals c
          = if warmup_seconds c =? 0 then [] else [("Warmup", warmup_seconds c)])
    as Hnone.
  { intros Hr. unfold _round_intervals, Py.truthy.
    rewrite range_up_nil by lia.
    destruct (warmup_seconds c =? 0); reflexivity. }
  split; [|exact Hnone]. split.
  - intros Hnil. destruct (Z_le_gt_dec (rounds c) 0) as [Hr|Hr].
    + rewrite (Hnone Hr) in Hnil.
      destruct (Z.eqb_spec (warmup_seconds c) 0); [auto | discriminate].
    + exfalso. unfold _round_intervals in Hnil.
      apply app_eq_nil in Hnil. destruct Hnil as [_ Hloop].
      rewrite range_up_cons in Hloop by lia. discriminate Hloop.
  - intros [Hr Hw]. rewrite (Hnone Hr), Hw. reflexivity.
Qed.

(** ** How long a session lasts *)

Lemma slept_app (t1 t2 : list event) :
  slept (t1 ++ t2) = slept t1 + slept t2.
Proof.
  induction t1 as [|e t1 IH]; cbn [List.app slept]; [reflexivity|].
  destruct e; rewrite IH; lia.
Qed.

Lemma slept_spec_countdown (label : string) (d : nat) :
  slept (spec_countdown label d) = Z.of_nat d.
Proof.
  induction d as [|d IH]; [reflexivity|].
  cbn [spec_countdown]. rewrite slept_app, IH. cbn [slept]. lia.
Qed.

Lemma slept_countdown (label : string) (seconds : Z) (enabled : bool) :
  0 <= seconds -> slept (countdown_events label seconds enabled) = seconds.
Proof.
  intros Hs. rewrite countdown_events_spec by exact Hs.
  rewrite slept_app, slept_spec_countdown.
  destruct enabled; cbn [List.app bell_events slept]; lia.
Qed.

Lemma slept_intervals (enabled : bool) (l : list interval) :
  Forall (fun iv : interval => 0 <= snd iv) l ->
  slept (flat_map (fun iv : interval => countdown_events (fst iv) (snd iv) enabled) l)
  = total_seconds l.
Proof.
  induction 1 as [|iv l Hiv Hl IH]; [reflexivity|].
  cbn [flat_map]. rewrite slept_app, IH, slept_countdown by exact Hiv.
  rewrite total_seconds_cons. reflexivity.
Qed.

Lemma durations_not_negative (c : TimerConfig) :
  valid_config c ->
  Forall (fun iv : interval => 0 <= snd iv) (_round_intervals c).
Proof.
  intros (_ & Hs & Hrest & Hw). unfold _round_intervals.
  apply Forall_app. split.
  - destruct (Py.truthy (warmup_seconds c)); repeat constructor. exact Hw.
  - generalize (Py.range 1 (rounds c + 1) 1). intros rs.
    induction rs as [|r rs IH]; cbn [flat_map]; [constructor|].
    apply Forall_app. split; [|exact IH].
    unfold round_body. constructor; [exact Hs|].
    destruct (negb (r =? rounds c) && Py.truthy (rest_seconds c));
      repeat constructor. exact Hrest.
Qed.

Lemma round_intervals_total (c : TimerConfig) :
  valid_config c ->
  total_seconds (_round_intervals c)
  = warmup_seconds c + rounds c * round_seconds c
    + (rounds c - 1) * rest_seconds c.
Proof.
  intros Hv. rewrite (round_intervals_spec c Hv).
  destruct Hv as (Hr & _ & Hrest & Hw). unfold spec_intervals.
  rewrite total_seconds_app, spec_rounds_total by exact Hrest.
  rewrite Z2Nat.id by lia.
  replace (Z.max 0 (rounds c - 1)) with (rounds c - 1) by lia.
  destruct (Z.ltb_spec 0 (warmup_seconds c)).
  - rewrite total_seconds_cons. cbn [snd]. change (total_seconds []) with 0. ring.
  - assert (warmup_seconds c = 0) as -> by lia. change (total_seconds []) with 0. ring.
Qed.

(** X9. An uninterrupted session of a valid configuration returns normally
    after sleeping, one second at a time, for
    [warmup_seconds + rounds * round_seconds + (rounds - 1) * rest_seconds]
    seconds in all. *)
Theorem session_sleeps_total (c : TimerConfig) :
  valid_config c ->
  result_of (run_timer c) = inl tt
  /\ slept (trace_of (run_timer c))
     = warmup_seconds c + rounds c * round_seconds c
       + (rounds c - 1) * rest_seconds c.
Proof.
  intros Hv. unfold result_of, trace_of, quiet.
  rewrite run_timer_quiet. cbn [fst snd trace List.app].
  split; [reflexivity|]. unfold session_events.
  rewrite slept_intervals by (apply durations_not_negative, Hv).
  apply round_intervals_total, Hv.
Qed.

Lemma session_sleeps_total_witness :
  valid_config (mkTimerConfig 3 180 60 10 true)
  /\ slept (trace_of (run_timer (mkTimerConfig 3 180 60 10 true))) = 670.
Proof.
  assert (valid_config (mkTimerConfig 3 180 60 10 true)) as Hv
    by (unfold valid_config; cbn; lia).
  split; [exact Hv|].
  exact (proj2 (session_sleeps_total (mkTimerConfig 3 180 60 10 true) Hv)).
Defined.

(** ** The driver never lets an interrupt escape *)

(** X10. Whatever the configuration, also one the command line would have
    refused, a Ctrl+C that strikes at any event of the session never escapes
    from [run_timer]: it returns normally, the terminal shows the events
    that completed followed by the stopped notice, and no interrupt is left
    pending. *)
Theorem run_timer_never_raises (c : TimerConfig) (k : nat) :
  (k < List.length (trace_of (run_timer c)))%nat ->
  run_timer c (interrupted_after k)
  = (inl tt,
     mkWorld (firstn k (trace_of (run_timer c))
              ++ [Stdout_write
                    (String Py.LF ("Timer stopped." ++ String Py.LF ""))])
       None).
Proof.
  assert (trace_of (run_timer c) = session_events c) as ->.
  { unfold trace_of, quiet. rewrite run_timer_quiet. reflexivity. }
  intros Hk. unfold interrupted_after.
  rewrite run_timer_interrupted by exact Hk. reflexivity.
Qed.

Lemma run_timer_never_raises_witness :
  (1 < List.length (trace_of (run_timer (mkTimerConfig 0 (-5) (-1) (-3) true))))%nat
  /\ run_timer (mkTimerConfig 0 (-5) (-1) (-3) true) (interrupted_after 1)
     = (inl tt,
        mkWorld [Stdout_write (String Py.LF "");
                 Stdout_write (String Py.LF ("Timer stopped." ++ String Py.LF ""))]
          None).
Proof.
  assert (1 < List.length (trace_of (run_timer (mkTimerConfig 0 (-5) (-1) (-3) true))))%nat
    as Hk by (vm_compute; lia).
  split; [exact Hk|].
  exact (run_timer_never_raises (mkTimerConfig 0 (-5) (-1) (-3) true) 1 Hk).
Defined.

(** ** Which validation error is reported *)

(** X11. Only the first failing check is reported, in the order rounds,
    round seconds, rest seconds, warmup seconds, and a duration is named as
    its option is spelled on the command line, with dashes. *)
Theorem validation_messages (parser : ArgumentParser) (args : Args.t) :
  let rejected := fun message : string =>
    script parser args quiet
    = (inr (SystemExit 2),
       mkWorld [Stderr_write (usage parser);
                Stderr_write (prog parser ++ ": error: " ++ message
                              ++ String Py.LF "")] None) in
  (Args.rounds args < 1 -> rejected "--rounds must be at least 1")
  /\ (1 <= Args.rounds args -> Args.round_seconds args < 0 ->
      rejected "--round-seconds cannot be negative")
  /\ (1 <= Args.rounds args -> 0 <= Args.round_seconds args ->
      Args.rest_seconds args < 0 ->
      rejected "--rest-seconds cannot be negative")
  /\ (1 <= Args.rounds args -> 0 <= Args.round_seconds args ->
      0 <= Args.rest_seconds args -> Args.warmup_seconds args < 0 ->
      rejected "--warmup-seconds cannot be negative").
Proof.
  cbv zeta.
  unfold script, main, parse_args, duration_names. cbn [for_each].
  change (getattr args "round_seconds") with (Args.round_seconds args).
  change (getattr args "rest_seconds") with (Args.rest_seconds args).
  change (getattr args "warmup_seconds") with (Args.warmup_seconds args).
  unfold bind, ret, parser_error, perform, raise, quiet. cbv zeta.
  cbn [interrupt_in trace List.app].
  repeat split; intros;
    repeat match goal with
           | H : ?a < ?b |- context [?a <? ?b] =>
               replace (a <? b) with true by (symmetry; apply Z.ltb_lt; exact H)
           | H : ?b <= ?a |- context [?a <? ?b] =>
               replace (a <? b) with false by (symmetry; apply Z.ltb_ge; exact H)
           end; reflexivity.
Qed.

Lemma validation_messages_witness :
  script (mkArgumentParser "boxing_timer.py" "usage") (Args.mk 3 180 (-60) (-10) false)
    quiet
  = (inr (SystemExit 2),
     mkWorld [Stderr_write "usage";
              Stderr_write ("boxing_timer.py: error: --rest-seconds cannot be negative"
                            ++ String Py.LF "")] None).
Proof.
  apply (proj1 (proj2 (proj2
           (validation_messages (mkArgumentParser "boxing_timer.py" "usage")
              (Args.mk 3 180 (-60) (-10) false))))); cbn; lia.
Defined.

(** ** One terminal line per interval *)

Lemma count_char_app (ch : ascii) (a b : string) :
  count_char ch (a ++ b) = (count_char ch a + count_char ch b)%nat.
Proof.
  induction a as [|d a IH]; cbn [append count_char]; [reflexivity|].
  rewrite IH. lia.
Qed.

Lemma printable_app (a b : string) :
  printable (a ++ b) = printable a && printable b.
Proof.
  induction a as [|d a IH]; cbn [append printable]; [reflexivity|].
  rewrite IH, andb_assoc. reflexivity.
Qed.

Lemma printable_no_newline (s : string) :
  printable s = true -> count_char Py.LF s = O.
Proof.
  induction s as [|d s IH]; cbn [printable count_char]; [reflexivity|].
  intros H. apply andb_true_iff in H. destruct H as [Hd Hs].
  rewrite (IH Hs).
  destruct (Ascii.eqb_spec d Py.LF) as [->|]; [discriminate Hd | reflexivity].
Qed.

Lemma printable_uint (u : Decimal.uint) :
  printable (NilEmpty.string_of_uint u) = true.
Proof.
  induction u; cbn [NilEmpty.string_of_uint printable]; try rewrite IHu; reflexivity.
Qed.

Lemma printable_digits (n : Z) : printable (Py.digits n) = true.
Proof.
  unfold Py.digits, NilZero.string_of_uint.
  destruct (N.to_uint (Z.abs_N n)) eqn:E; try reflexivity; apply printable_uint.
Qed.

Lemma printable_sign (n : Z) : printable (Py.sign n) = true.
Proof. unfold Py.sign. destruct (n <? 0); reflexivity. Qed.

Lemma printable_zeros (k : nat) : printable (Py.zeros k) = true.
Proof. induction k as [|k IH]; cbn [Py.zeros printable]; [|rewrite IH]; reflexivity. Qed.

Lemma printable_format_time (s : Z) : printable (_format_time s) = true.
Proof.
  unfold _format_time, Py.divmod, Py.format_0d.
  rewrite !printable_app, !printable_sign, !printable_zeros, !printable_digits.
  reflexivity.
Qed.

Lemma printable_round_label (c : TimerConfig) (i : Z) :
  printable (round_label c i) = true.
Proof.
  unfold round_label, Py.str.
  rewrite !printable_app, !printable_sign, !printable_digits. reflexivity.
Qed.

Lemma newlines_status_line (label : string) (r : Z) :
  printable label = true -> count_char Py.LF (status_line label r) = O.
Proof.
  intros Hl. unfold status_line. cbn [count_char].
  rewrite printable_no_newline; [reflexivity|].
  rewrite !printable_app, Hl, printable_format_time. reflexivity.
Qed.

Lemma newlines_stdout_app (t1 t2 : list event) :
  count_char Py.LF (stdout_text (t1 ++ t2))
  = (count_char Py.LF (stdout_text t1) + count_char Py.LF (stdout_text t2))%nat.
Proof.
  induction t1 as [|e t1 IH]; cbn [List.app stdout_text]; [reflexivity|].
  destruct e; try exact IH. rewrite !count_char_app, IH. lia.
Qed.

Lemma newlines_ticks (label : string) (rs : list Z) :
  printable label = true ->
  count_char Py.LF (stdout_text (flat_map (tick_events label) rs)) = O.
Proof.
  intros Hl. induction rs as [|r rs IH]; cbn [flat_map]; [reflexivity|].
  rewrite newlines_stdout_app, IH.
  unfold tick_events. destruct (0 <? r); cbn [List.app stdout_text];
    rewrite count_char_app, newlines_status_line by exact Hl; reflexivity.
Qed.

Lemma newlines_countdown (label : string) (seconds : Z) (enabled : bool) :
  printable label = true ->
  count_char Py.LF (stdout_text (countdown_events label seconds enabled)) = 1%nat.
Proof.
  intros Hl. unfold countdown_events.
  rewrite newlines_stdout_app, newlines_ticks by exact Hl.
  destruct enabled; reflexivity.
Qed.

Lemma labels_printable (c : TimerConfig) :
  Forall (fun iv : interval => printable (fst iv) = true) (_round_intervals c).
Proof.
  unfold _round_intervals. apply Forall_app. split.
  - destruct (Py.truthy (warmup_seconds c)); repeat constructor.
  - generalize (Py.range 1 (rounds c + 1) 1). intros rs.
    induction rs as [|r rs IH]; cbn [flat_map]; [constructor|].
    apply Forall_app. split; [|exact IH].
    unfold round_body. constructor.
    + apply printable_round_label.
    + destruct (negb (r =? rounds c) && Py.truthy (rest_seconds c));
        repeat constructor.
Qed.

Lemma newlines_intervals (enabled : bool) (l : list interval) :
  Forall (fun iv : interval => printable (fst iv) = true) l ->
  count_char Py.LF
    (stdout_text
       (flat_map (fun iv : interval => countdown_events (fst iv) (snd iv) enabled) l))
  = List.length l.
Proof.
  induction 1 as [|iv l Hiv Hl IH]; [reflexivity|].
  cbn [flat_map List.length].
  rewrite newlines_stdout_app, IH, newlines_countdown by exact Hiv.
  reflexivity.
Qed.

(** X12. An uninterrupted session, whatever its configuration, writes exactly
    one newline per interval: the labels and the displayed times hold none,
    so each interval occupies one line of the terminal, rewritten in place. *)
Theorem one_line_per_interval (c : TimerConfig) :
  count_char Py.LF (stdout_text (trace_of (run_timer c)))
  = List.length (_round_intervals c).
Proof.
  unfold trace_of, quiet. rewrite run_timer_quiet. cbn [snd trace List.app].
  unfold session_events. apply newlines_intervals, labels_printable.
Qed.

(** ** What the command line hands to the timer *)

(** X13. Whatever [parse_args] returns is a valid configuration, made of the
    values of the command line with the bell on unless [--no-bell] was given,
    and nothing was printed on the way: the timer is only ever started from
    the command line with at least one round and no negative duration. *)
Theorem parsed_config_is_valid (parser : ArgumentParser) (args : Args.t)
    (c : TimerConfig) (w : world) :
  parse_args parser args quiet = (inl c, w) ->
  valid_config c
  /\ c = mkTimerConfig (Args.rounds args) (Args.round_seconds args)
           (Args.rest_seconds args) (Args.warmup_seconds args)
           (negb (Args.no_bell args))
  /\ w = quiet.
Proof.
  intros H.
  destruct (Z_lt_ge_dec (Args.rounds args) 1) as [Hr|Hr];
    [destruct (parse_args_rejects parser args (or_introl Hr)) as [m Hm];
     rewrite Hm in H; discriminate H|].
  destruct (Z_lt_ge_dec (Args.round_seconds args) 0) as [Hs|Hs];
    [destruct (parse_args_rejects parser args (or_intror (or_introl Hs))) as [m Hm];
     rewrite Hm in H; discriminate H|].
  destruct (Z_lt_ge_dec (Args.rest_seconds args) 0) as [Hrest|Hrest];
    [destruct (parse_args_rejects parser args
                 (or_intror (or_intror (or_introl Hrest)))) as [m Hm];
     rewrite Hm in H; discriminate H|].
  destruct (Z_lt_ge_dec (Args.warmup_seconds args) 0) as [Hw|Hw];
    [destruct (parse_args_rejects parser args
                 (or_intror (or_intror (or_intror Hw)))) as [m Hm];
     rewrite Hm in H; discriminate H|].
  assert (valid_args args) as Hv by (unfold valid_args; lia).
  rewrite (parse_args_accepts parser args quiet Hv) in H.
  injection H as <- <-.
  split; [|split; reflexivity].
  unfold valid_config, config_of_args. cbn. unfold valid_args in Hv. exact Hv.
Qed.

Lemma parsed_config_is_valid_witness :
  parse_args (mkArgumentParser "boxing_timer.py" "usage") Args.defaults quiet
  = (inl (mkTimerConfig 3 180 60 10 true), quiet)
  /\ valid_config (mkTimerConfig 3 180 60 10 true).
Proof.
  assert (parse_args (mkArgumentParser "boxing_timer.py" "usage") Args.defaults quiet
          = (inl (mkTimerConfig 3 180 60 10 true), quiet)) as H by reflexivity.
  split; [exact H|].
  exact (proj1 (parsed_config_is_valid
                  (mkArgumentParser "boxing_timer.py" "usage") Args.defaults
                  (mkTimerConfig 3 180 60 10 true) quiet H)).
Defined.

(** ** The display is up to date before every wait *)

Lemma sleeps_follow_flush_weaken (flushed : bool) (t : list event) :
  sleeps_follow_flush false t = true -> sleeps_follow_flush flushed t = true.
Proof.
  destruct t as [|[s| |secs|s] t]; cbn [sleeps_follow_flush]; try (intros H; exact H).
  intros H. discriminate H.
Qed.

Lemma sleeps_follow_flush_app (flushed : bool) (t1 t2 : list event) :
  sleeps_follow_flush flushed t1 = true ->
  sleeps_follow_flush false t2 = true ->
  sleeps_follow_flush flushed (t1 ++ t2) = true.
Proof.
  revert flushed. induction t1 as [|e t1 IH]; intros flushed H1 H2.
  - apply sleeps_follow_flush_weaken, H2.
  - destruct e; cbn [List.app sleeps_follow_flush] in *; try (apply IH; assumption).
    apply andb_true_iff in H1. destruct H1 as [-> H1].
    cbn [andb]. apply IH; assumption.
Qed.

Lemma ticks_sleep_flushed (label : string) (rs : list Z) :
  sleeps_follow_flush false (flat_map (tick_events label) rs) = true.
Proof.
  induction rs as [|r rs IH]; cbn [flat_map]; [reflexivity|].
  apply sleeps_follow_flush_app; [|exact IH].
  unfold tick_events. destruct (0 <? r); reflexivity.
Qed.

Lemma countdown_sleep_flushed (label : string) (seconds : Z) (enabled : bool) :
  sleeps_follow_flush false (countdown_events label seconds enabled) = true.
Proof.
  unfold countdown_events. apply sleeps_follow_flush_app.
  - apply ticks_sleep_flushed.
  - destruct enabled; reflexivity.
Qed.

(** X14. Whatever the configuration, every sleep of a session comes directly
    after a flush of standard output: the timer never waits with a status
    line still in the buffer. *)
Theorem display_flushed_before_sleep (c : TimerConfig) :
  sleeps_follow_flush false (trace_of (run_timer c)) = true.
Proof.
  unfold trace_of, quiet. rewrite run_timer_quiet. cbn [snd trace List.app].
  unfold session_events.
  induction (_round_intervals c) as [|iv l IH]; cbn [flat_map]; [reflexivity|].
  apply sleeps_follow_flush_app; [apply countdown_sleep_flushed | exact IH].
Qed.
